(** * Docs_to_Excel_Script: convert_docx_to_excel_with_drive.py

    A shallow embedding of the conversion script and the properties of its
    row-resolution pipeline.

    Conventions of the embedding.
    - A Python [str] is a [string]; each character stands for the code point
      of the same number (U+0000 to U+00FF), and [py_isspace], [py_lower_char]
      are Python's [str.isspace] and [str.lower] on that range.
    - A Python [bytes] is a [list byte].
    - External collaborators (the Drive client, [requests.get], [time.sleep])
      are handlers over an abstract world; every call is recorded in a log.
    - A Python exception is a value of [exn]; code that can raise returns
      [exn + A]. *)

From Stdlib Require Import ZArith Ascii String.
From Stdlib.Strings Require Import Byte.
From stdpp Require Import base option list gmap strings pretty.

(** ** Python strings *)

Module PyStr.

(** [str.isspace] on one character: TAB, LF, VT, FF, CR, FS, GS, RS, US,
    SPACE, NEL (U+0085) and NBSP (U+00A0). *)
Definition py_isspace (c : ascii) : bool :=
  let n := nat_of_ascii c in
  ((9 <=? n) && (n <=? 13)) || ((28 <=? n) && (n <=? 32))
  || (n =? 133) || (n =? 160).

(** [str.lower] on one character: A-Z, and U+00C0..U+00DE except U+00D7. *)
Definition py_lower_char (c : ascii) : ascii :=
  let n := nat_of_ascii c in
  if ((65 <=? n) && (n <=? 90))
     || ((192 <=? n) && (n <=? 222) && negb (n =? 215))
  then ascii_of_nat (n + 32) else c.

Fixpoint lower (s : string) : string :=
  match s with
  | EmptyString => EmptyString
  | String c s' => String (py_lower_char c) (lower s')
  end.

Fixpoint lstrip (s : string) : string :=
  match s with
  | EmptyString => EmptyString
  | String c s' => if py_isspace c then lstrip s' else s
  end.

Fixpoint rstrip (s : string) : string :=
  match s with
  | EmptyString => EmptyString
  | String c s' =>
      match rstrip s' with
      | EmptyString => if py_isspace c then EmptyString else String c EmptyString
      | r => String c r
      end
  end.

(** [s.strip()] *)
Definition strip (s : string) : string := lstrip (rstrip s).

(** Truthiness of a [str]: non-empty. *)
Definition truthy (s : string) : bool :=
  match s with EmptyString => false | String _ _ => true end.

(** [sep.join(l)] *)
Fixpoint join (sep : string) (l : list string) : string :=
  match l with
  | [] => EmptyString
  | [x] => x
  | x :: l' => x +:+ sep +:+ join sep l'
  end.

(** [p in s] for strings: [p] occurs in [s]. *)
Fixpoint contains (p s : string) : bool :=
  String.prefix p s ||
  match s with
  | EmptyString => false
  | String _ s' => contains p s'
  end.

Definition apostrophe : ascii := "039"%char.
Definition backslash : ascii := "092"%char.
Definition dquote : ascii := "034"%char.
Definition newline : string := String "010"%char EmptyString.

(** [s.replace(apostrophe, backslash + apostrophe)]: every apostrophe gets a
    backslash before it. *)
Fixpoint escape_quote (s : string) : string :=
  match s with
  | EmptyString => EmptyString
  | String c s' =>
      if Ascii.eqb c apostrophe
      then String backslash (String apostrophe (escape_quote s'))
      else String c (escape_quote s')
  end.

Fixpoint drop (n : nat) (s : string) : string :=
  match n, s with
  | O, _ => s
  | S n', EmptyString => EmptyString
  | S n', String _ s' => drop n' s'
  end.

(** The longest prefix of [s] whose characters satisfy [p], and the rest. *)
Fixpoint span (p : ascii -> bool) (s : string) : string * string :=
  match s with
  | EmptyString => (EmptyString, EmptyString)
  | String c s' =>
      if p c then let '(a, b) := span p s' in (String c a, b)
      else (EmptyString, s)
  end.

End PyStr.
Import PyStr.

(** ** The regular expression of [first_hyperlink_url]

    The pattern is the word HYPERLINK, one or more white-space characters, a
    double quote, a group of one or more characters other than the double
    quote, and a double quote.  [re_match_here t] is a match anchored at the
    start of [t]; since a double quote is not white space and the group
    excludes the quote, both greedy repetitions take their longest run.  [re_search_hyperlink] is
    [re.search(...)] followed by [m.group(1)]: the leftmost match. *)

Definition re_match_here (t : string) : option string :=
  if String.prefix "HYPERLINK" t then
    let '(ws, r1) := span py_isspace (drop 9 t) in
    if truthy ws then
      match r1 with
      | String q r2 =>
          if Ascii.eqb q dquote then
            let '(g, r3) := span (fun c => negb (Ascii.eqb c dquote)) r2 in
            if truthy g then
              match r3 with
              | String _ _ => Some g
              | EmptyString => None
              end
            else None
          else None
      | EmptyString => None
      end
    else None
  else None.

Fixpoint re_search_hyperlink (t : string) : option string :=
  match re_match_here t with
  | Some g => Some g
  | None =>
      match t with
      | EmptyString => None
      | String _ t' => re_search_hyperlink t'
      end
  end.

(** ** The document model (python-docx objects the script reads) *)

Definition bytes := list byte.

(** A package part: [part.content_type] ([None] when the object has no such
    attribute, the case [hasattr] tests for) and [part.blob]. *)
Record Part := {
  content_type : option string;
  blob : bytes
}.

(** A relationship of a part.  [rel.target_part] raises [ValueError] when the
    relationship is external. *)
Inductive Rel :=
| ExternalRel (target : string)
| InternalRel (target : string) (part : Part).

Definition is_external (r : Rel) : bool :=
  match r with ExternalRel _ => true | InternalRel _ _ => false end.

Definition target_ref (r : Rel) : string :=
  match r with ExternalRel t => t | InternalRel t _ => t end.

(** [None] stands for the raised [ValueError]. *)
Definition target_part (r : Rel) : option Part :=
  match r with ExternalRel _ => None | InternalRel _ p => Some p end.

(** A table cell as the script sees it:
    - [paragraphs]: [p.text] of each paragraph;
    - [part_rels]: [cell.part.rels], relationship id to relationship, in
      iteration order;
    - [hyperlink_rids]: the [r:id] attribute of every [w:hyperlink] element
      under the cell that has one, in document order (what the first XPath
      expression of [first_hyperlink_url] selects);
    - [instr_texts]: [.text] of every [w:instrText] element under the cell
      (what the second expression selects). *)
Record Cell := {
  paragraphs : list string;
  part_rels : list (string * Rel);
  hyperlink_rids : list string;
  instr_texts : list (option string)
}.

Record Row := { cells : list Cell }.

(** [columns] is [len(table.columns)]. *)
Record Table := { rows : list Row; columns : nat }.

Definition Document := list Table.

(** [rels[rId]] / [rId in rels] *)
Fixpoint rels_lookup (rels : list (string * Rel)) (rId : string) : option Rel :=
  match rels with
  | [] => None
  | (k, r) :: rels' => if String.eqb k rId then Some r else rels_lookup rels' rId
  end.

(** ** DOCX table parsing helpers *)

Definition cell_text (cell : Cell) : string :=
  let paras := map strip (paragraphs cell) in
  strip (join newline paras).

(** The loop over [w:hyperlink[@r:id]] elements. *)
Fixpoint direct_hyperlink (rels : list (string * Rel)) (rids : list string)
  : option string :=
  match rids with
  | [] => None
  | rId :: rids' =>
      match (if truthy rId then rels_lookup rels rId else None) with
      | Some rel =>
          if is_external rel then Some (target_ref rel)
          else direct_hyperlink rels rids'
      | None => direct_hyperlink rels rids'
      end
  end.

(** The loop over [w:instrText] elements. *)
Fixpoint field_hyperlink (instrs : list (option string)) : option string :=
  match instrs with
  | [] => None
  | instr :: instrs' =>
      let t := default EmptyString instr in
      if contains "HYPERLINK" t then
        match re_search_hyperlink t with
        | Some u => Some u
        | None => field_hyperlink instrs'
        end
      else field_hyperlink instrs'
  end.

(** [tc.xpath(expr, **keywords)] on a python-docx element ([cell._tc]).  The
    [xpath] method of such an element takes the expression alone and passes
    the namespace map itself; called with a keyword argument it raises
    [TypeError].  [elements] is what the expression selects, [None] stands
    for the raised exception. *)
Definition oxml_xpath {A : Type} (keywords : list string) (elements : A)
  : option A :=
  match keywords with
  | [] => Some elements
  | _ :: _ => None
  end.

(** The body runs inside [try: ... except Exception: return None]; both
    XPath calls are made with [namespaces=ns]. *)
Definition first_hyperlink_url (cell : Cell) : option string :=
  match oxml_xpath ["namespaces"] (hyperlink_rids cell) with
  | None => None
  | Some rids =>
      match direct_hyperlink (part_rels cell) rids with
      | Some u => Some u
      | None =>
          match oxml_xpath ["namespaces"] (instr_texts cell) with
          | None => None
          | Some instrs => field_hyperlink instrs
          end
      end
  end.

(** The loop of [first_embedded_image_bytes] over the relationships of the
    cell's part.  An external relationship makes [target_part] raise; the
    bare [except] swallows it and the function returns [None]. *)
Fixpoint first_image_in (rels : list (string * Rel)) : option (bytes * string) :=
  match rels with
  | [] => None
  | (_, rel) :: rels' =>
      match target_part rel with
      | None => None
      | Some p =>
          match content_type p with
          | None => first_image_in rels'
          | Some ct =>
              if String.prefix "image/" ct then Some (blob p, ct)
              else first_image_in rels'
          end
      end
  end.

Definition first_embedded_image_bytes (cell : Cell) : option (bytes * string) :=
  first_image_in (part_rels cell).

(** ** External collaborators and effects *)

(** Python exceptions: [HttpError status] is
    [googleapiclient.errors.HttpError] with [e.resp.status = status];
    [OtherError] is any other subclass of [Exception].  Exceptions outside
    [Exception] (an interrupt, an exit) are not modelled. *)
Inductive exn :=
| HttpError (status : Z)
| OtherError (what : string).

(** A [requests.Response]: [r.status_code], [r.content] and
    [r.headers.get(Content-Type)]. *)
Record Response := {
  status_code : Z;
  content : bytes;
  header_content_type : option string
}.

(** The [body] and [media_body] of [files().create]. *)
Record FileBody := {
  body_name : string;
  body_mimeType : option string;
  body_parents : list string
}.

(** One entry of the [files] list of a [files().list] result. *)
Record FileEntry := { entry_id : string; entry_name : string }.

(** The calls the script makes to the outside, as they are logged. *)
Inductive Event :=
| FilesList (q : string)
| FilesCreate (body : FileBody) (media : option (bytes * string))
| PermissionsCreate (file_id : string)
| Sleep (seconds : Z)
| HttpGet (url : string) (timeout : Z).

(** The outside world: how each call answers in a world state [W], and the
    state it leaves.  [files_list] answers [res.get(files, [])],
    [files_create] answers the [id] of the created object. *)
Record Env (W : Type) := {
  files_list : string -> W -> (exn + list FileEntry) * W;
  files_create : FileBody -> option (bytes * string) -> W -> (exn + string) * W;
  permissions_create : string -> W -> (exn + unit) * W;
  time_sleep : Z -> W -> W;
  requests_get : string -> Z -> W -> (exn + Response) * W
}.
Arguments files_list {W}.
Arguments files_create {W}.
Arguments permissions_create {W}.
Arguments time_sleep {W}.
Arguments requests_get {W}.

(** Computations: a world state and the log of calls so far go in, a result
    or a raised exception comes out with the new state and log. *)
Definition M (W A : Type) : Type := W * list Event -> (exn + A) * (W * list Event).

Definition ret {W A} (a : A) : M W A := fun s => (inr a, s).
Definition raise {W A} (e : exn) : M W A := fun s => (inl e, s).
Definition bind {W A B} (m : M W A) (k : A -> M W B) : M W B :=
  fun s => match m s with
           | (inr a, s') => k a s'
           | (inl e, s') => (inl e, s')
           end.
(** [try: m except Exception as e: h e] *)
Definition try_catch {W A} (m : M W A) (h : exn -> M W A) : M W A :=
  fun s => match m s with
           | (inr a, s') => (inr a, s')
           | (inl e, s') => h e s'
           end.

#[global] Instance M_ret {W} : MRet (M W) := fun A => @ret W A.
#[global] Instance M_bind {W} : MBind (M W) := fun A B k m => bind m k.

Section Script.
Context {W : Type} (env : Env W).

Definition call {A} (e : Event) (h : W -> (exn + A) * W) : M W A :=
  fun '(w, log) => let '(r, w') := h w in (r, (w', log ++ [e])).

Definition call_files_list (q : string) : M W (list FileEntry) :=
  call (FilesList q) (files_list env q).
Definition call_files_create (b : FileBody) (media : option (bytes * string))
  : M W string :=
  call (FilesCreate b media) (files_create env b media).
Definition call_permissions_create (file_id : string) : M W unit :=
  call (PermissionsCreate file_id) (permissions_create env file_id).
Definition call_sleep (secs : Z) : M W unit :=
  call (Sleep secs) (fun w => (inr tt, time_sleep env secs w)).
Definition call_requests_get (url : string) (timeout : Z) : M W Response :=
  call (HttpGet url timeout) (requests_get env url timeout).

(** *** Google Drive helpers *)

Definition folder_mime : string := "application/vnd.google-apps.folder".

Definition folder_query (name : string) : string :=
  let safe_name := escape_quote name in
  "name = '" +:+ safe_name +:+ "' and " +:+
  "mimeType = 'application/vnd.google-apps.folder' and " +:+
  "trashed = false".

(** The [body] of the folder creation. *)
Definition folder_body (name : string) : FileBody :=
  {| body_name := name; body_mimeType := Some folder_mime; body_parents := [] |}.

Definition find_or_create_folder (name : string) : M W string :=
  let q := folder_query name in
  found ← try_catch
             (files ← call_files_list q;
              match files with
              | f :: _ => ret (Some (entry_id f))
              | [] => ret None
              end)
             (fun _ => ret None);
  match found with
  | Some id => ret id
  | None =>
      call_files_create (folder_body name) None
  end.

Definition retryable_status (status : Z) : bool :=
  bool_decide (status ∈ [403; 429; 500; 503]%Z).

Definition set_public_anyone_reader (file_id : string) : M W unit :=
  try_catch (call_permissions_create file_id)
    (fun e =>
       match e with
       | HttpError status =>
           if retryable_status status then
             call_sleep 2 ;; call_permissions_create file_id
           else raise e
       | OtherError _ => raise e
       end).

Definition view_url (file_id : string) : string :=
  "https://drive.google.com/uc?export=view&id=" +:+ file_id.

(** [if not mime: mime = ...]: [None] and the empty string get the default. *)
Definition mime_or_default (mime : option string) : string :=
  match mime with
  | Some m => if truthy m then m else "application/octet-stream"
  | None => "application/octet-stream"
  end.

Definition upload_image_bytes (folder_id name_hint : string) (data : bytes)
    (mime : option string) : M W string :=
  let mime := mime_or_default mime in
  file_id ← call_files_create
               {| body_name := name_hint; body_mimeType := None;
                  body_parents := [folder_id] |} (Some (data, mime));
  set_public_anyone_reader file_id;;
  ret (view_url file_id).

(** *** The remote fetcher *)

(** [r.raise_for_status()] of the requests library: raises for a status
    from 400 to 599. *)
Definition raise_for_status (r : Response) : M W unit :=
  if ((400 <=? status_code r) && (status_code r <? 600))%Z
  then raise (OtherError "requests.HTTPError") else ret tt.

Definition download_url_bytes (url : string)
  : M W (option (bytes * option string)) :=
  try_catch
    (r ← call_requests_get url 20;
     raise_for_status r;;
     let data := content r in
     let mime := header_content_type r in
     ret (Some (data, mime)))
    (fun _ => ret None).

End Script.

(** ** Main conversion: the pure part *)

(** The table choice: the first table with at least 3 columns, else the
    first table. *)
Definition choose_table (doc : Document) : option Table :=
  match List.find (fun t => 3 <=? columns t) doc with
  | Some t => Some t
  | None => head doc
  end.

(** [sum(1 for h in headers if h.strip())] *)
Definition nonempty_count (headers : list string) : nat :=
  length (List.filter (fun h => truthy (strip h)) headers).

(** [max(1, int(len(headers) * 0.6))].  The float product [n * 0.6] is
    within one unit in the last place of [6n/10], which is an integer or at
    least 0.2 away from one, and rounds to the integer itself when [6n/10]
    is one; so [int] of it is the integer quotient of [6n] by [10]. *)
Definition header_threshold (n : nat) : nat := Nat.max 1 (n * 6 / 10).

Definition header_like (headers : list string) : bool :=
  header_threshold (length headers) <=? nonempty_count headers.

(** [[f"Column {i+1}" for i in range(n)]] *)
Definition column_name (i : nat) : string := "Column " +:+ pretty (i + 1).

Definition synthetic_headers (n : nat) : list string :=
  map column_name (seq 0 n).

(** Headers and data rows from the rows of the chosen table, whose first row
    is [first_row]. *)
Definition build_headers (first_row : Row) (table_rows : list Row)
  : list string * list Row :=
  let headers := map cell_text (cells first_row) in
  if header_like headers then (headers, tail table_rows)
  else (synthetic_headers (length (cells first_row)), table_rows).

(** The loop that finds [photo_idx]; [lowered] is the set of lower-cased
    candidates and [i] the index of the head of [headers]. *)
Fixpoint find_photo_idx (lowered : gset string) (i : nat) (headers : list string)
  : option nat :=
  match headers with
  | [] => None
  | h :: hs =>
      if bool_decide (lower (strip h) ∈ lowered) then Some i
      else find_photo_idx lowered (S i) hs
  end.

Definition PHOTO_HEADER_CANDIDATES : gset string :=
  {[ "Photo"; "Image"; "Picture"; "Photograph" ]}.

(** The key of column [i] in the row dictionary: [h if h else f"Column {i+1}"]. *)
Definition row_key (i : nat) (h : string) : string :=
  if truthy h then h else column_name i.

(** The packing loop, from column [i] on, over the dictionary built so far. *)
Fixpoint pack_from (i : nat) (headers : list string) (values : list string)
    (row_dict : gmap string string) : gmap string string :=
  match headers with
  | [] => row_dict
  | h :: hs =>
      pack_from (S i) hs values
        (<[row_key i h := default EmptyString (values !! i)]> row_dict)
  end.

Definition pack_row (headers values : list string) : gmap string string :=
  pack_from 0 headers values ∅.

(** Truthiness of [public_link], which is [None] or a string. *)
Definition truthy_link (l : option string) : bool :=
  match l with Some s => truthy s | None => false end.

(** The name hints [f"row{r_i}_photo"] and [f"row{r_i}_photo_from_link"]. *)
Definition photo_name (r_i : nat) : string := "row" +:+ pretty r_i +:+ "_photo".
Definition photo_from_link_name (r_i : nat) : string :=
  "row" +:+ pretty r_i +:+ "_photo_from_link".

(** ** Main conversion: the row resolution engine *)

Section Conversion.
Context {W : Type} (env : Env W).

(** The three-step block that computes [public_link] for the photo cell of
    data row number [r_i]. *)
Definition resolve_photo (folder_id : string) (r_i : nat) (photo_cell : Cell)
  : M W (option string) :=
  (* 1) Embedded image in the cell *)
  public_link ←
    match first_embedded_image_bytes photo_cell with
    | Some (blob, mime) =>
        let name_hint := photo_name r_i in
        l ← upload_image_bytes env folder_id name_hint blob (Some mime);
        ret (Some l)
    | None => ret None
    end;
  (* 2) Hyperlink present *)
  if negb (truthy_link public_link) then
    match first_hyperlink_url photo_cell with
    | Some url =>
        if truthy url then
          fetched ← download_url_bytes env url;
          match fetched with
          | Some (blob, mime) =>
              let name_hint := photo_from_link_name r_i in
              l ← upload_image_bytes env folder_id name_hint blob mime;
              ret (Some l)
          | None => ret (Some url)
          end
        else ret public_link
    | None => ret public_link
    end
  else ret public_link.

(** The values of one data row after the photo step.  [cells row !! p] is
    defined exactly when [photo_idx < len(row.cells)]. *)
Definition row_values (folder_id : string) (photo_idx : option nat) (r_i : nat)
    (row : Row) : M W (list string) :=
  let values := map cell_text (cells row) in
  match photo_idx with
  | Some p =>
      match cells row !! p with
      | Some photo_cell =>
          public_link ← resolve_photo folder_id r_i photo_cell;
          (* 3) If neither image nor link, leave text as-is *)
          match public_link with
          | Some l => if truthy l then ret (<[p := l]> values) else ret values
          | None => ret values
          end
      | None => ret values
      end
  | None => ret values
  end.

Definition process_row (folder_id : string) (headers : list string)
    (photo_idx : option nat) (r_i : nat) (row : Row) : M W (gmap string string) :=
  values ← row_values folder_id photo_idx r_i row;
  ret (pack_row headers values).

(** [for r_i, row in enumerate(data_rows, start=...)] *)
Fixpoint process_rows (folder_id : string) (headers : list string)
    (photo_idx : option nat) (r_i : nat) (data_rows : list Row)
  : M W (list (gmap string string)) :=
  match data_rows with
  | [] => ret []
  | row :: rest =>
      row_dict ← process_row folder_id headers photo_idx r_i row;
      rows_out ← process_rows folder_id headers photo_idx (S r_i) rest;
      ret (row_dict :: rows_out)
  end.

(** The whole conversion, from the loaded document to the two arguments of
    [pd.DataFrame]: the row dictionaries and the column order.  [env] is the
    authenticated Drive client together with the network. *)
Definition convert_docx_to_excel_with_drive (doc : Document)
    (folder_name : string) (photo_header_candidates : gset string)
  : M W (list (gmap string string) * list string) :=
  match choose_table doc with
  | None => raise (OtherError "ValueError: No tables found in the DOCX.")
  | Some table =>
      match rows table with
      | [] => raise (OtherError "IndexError")
      | first_row :: _ =>
          let '(headers, data_rows) := build_headers first_row (rows table) in
          let photo_idx :=
            find_photo_idx (set_map lower photo_header_candidates) 0 headers in
          folder_id ← find_or_create_folder env folder_name;
          rows_out ← process_rows folder_id headers photo_idx 1 data_rows;
          ret (rows_out, headers)
      end
  end.

End Conversion.

(** ** A simulated world

    A small concrete world used to run the script: a store of created
    objects with sequential ids, a queue of failures that the next
    permission calls report, a switch that makes the listing call fail, and
    a table of reachable URLs. *)

Record Sim := {
  sim_objects : list (string * FileBody);
  sim_perm_faults : list exn;
  sim_list_down : bool;
  sim_web : list (string * Response)
}.

Definition sim_is_folder_named (q : string) (o : string * FileBody) : bool :=
  bool_decide (folder_query (body_name (snd o)) = q)
  && bool_decide (body_mimeType (snd o) = Some folder_mime).

Definition sim_files_list (q : string) (w : Sim) : (exn + list FileEntry) * Sim :=
  if sim_list_down w then (inl (OtherError "listing unavailable"), w)
  else (inr (map (fun o => {| entry_id := fst o; entry_name := body_name (snd o) |})
               (List.filter (sim_is_folder_named q) (sim_objects w))), w).

Definition sim_files_create (b : FileBody) (media : option (bytes * string))
    (w : Sim) : (exn + string) * Sim :=
  let id := "id" +:+ pretty (length (sim_objects w)) in
  (inr id, {| sim_objects := sim_objects w ++ [(id, b)];
              sim_perm_faults := sim_perm_faults w;
              sim_list_down := sim_list_down w;
              sim_web := sim_web w |}).

Definition sim_permissions_create (file_id : string) (w : Sim)
  : (exn + unit) * Sim :=
  match sim_perm_faults w with
  | e :: rest => (inl e, {| sim_objects := sim_objects w;
                            sim_perm_faults := rest;
                            sim_list_down := sim_list_down w;
                            sim_web := sim_web w |})
  | [] => (inr tt, w)
  end.

Fixpoint sim_web_lookup (web : list (string * Response)) (url : string)
  : option Response :=
  match web with
  | [] => None
  | (u, r) :: web' => if String.eqb u url then Some r else sim_web_lookup web' url
  end.

Definition sim_requests_get (url : string) (timeout : Z) (w : Sim)
  : (exn + Response) * Sim :=
  match sim_web_lookup (sim_web w) url with
  | Some r => (inr r, w)
  | None => (inl (OtherError "requests.ConnectionError"), w)
  end.

Definition sim_env : Env Sim := {|
  files_list := sim_files_list;
  files_create := sim_files_create;
  permissions_create := sim_permissions_create;
  time_sleep := fun _ w => w;
  requests_get := sim_requests_get
|}.

Definition sim_empty : Sim := {|
  sim_objects := [];
  sim_perm_faults := [];
  sim_list_down := false;
  sim_web := []
|}.

(** ** Reading the log *)

(** An upload is a [files().create] with a media body. *)
Definition is_upload (e : Event) : bool :=
  match e with FilesCreate _ (Some _) => true | _ => false end.

Definition is_fetch (e : Event) : bool :=
  match e with HttpGet _ _ => true | _ => false end.

Definition count_events (p : Event -> bool) (log : list Event) : nat :=
  length (List.filter p log).

(** ** Concrete documents and worlds *)

Definition example_url : string := "http://example.org/a.png".

Definition text_cell (s : string) : Cell :=
  {| paragraphs := [s]; part_rels := []; hyperlink_rids := [];
     instr_texts := [] |}.

Definition jpeg_part : Part :=
  {| content_type := Some "image/jpeg"; blob := [xff; xd8; xff] |}.

(** A cell of a part that holds an image and an external hyperlink, the
    cell itself showing the hyperlink. *)
Definition image_and_link_cell : Cell :=
  {| paragraphs := ["see photo"];
     part_rels := [("rId1", InternalRel "media/image1.jpeg" jpeg_part);
                   ("rId2", ExternalRel example_url)];
     hyperlink_rids := ["rId2"];
     instr_texts := [] |}.

Definition link_cell (url : string) : Cell :=
  {| paragraphs := ["see photo"];
     part_rels := [("rId2", ExternalRel url)];
     hyperlink_rids := ["rId2"];
     instr_texts := [] |}.

Definition ok_response : Response :=
  {| status_code := 200; content := [x89; x50];
     header_content_type := Some "image/png" |}.

Definition not_modified_response : Response :=
  {| status_code := 304; content := []; header_content_type := None |}.

Definition sim_with_web (web : list (string * Response)) : Sim :=
  {| sim_objects := []; sim_perm_faults := []; sim_list_down := false;
     sim_web := web |}.

Definition sim_perm_failing (faults : list exn) : Sim :=
  {| sim_objects := []; sim_perm_faults := faults; sim_list_down := false;
     sim_web := [] |}.

Definition sim_listing_down : Sim :=
  {| sim_objects := []; sim_perm_faults := []; sim_list_down := true;
     sim_web := [] |}.

Definition photo_row : Row :=
  {| cells := [text_cell "Al"; text_cell "3"; image_and_link_cell;
               text_cell "n"] |}.

Definition link_row (url : string) : Row :=
  {| cells := [text_cell "Bo"; link_cell url] |}.

Definition plain_row : Row :=
  {| cells := [text_cell "Cy"; text_cell "  no photo "] |}.

(** A world in which [example_url] answers 200 with a PNG. *)
Definition sim_reachable : Sim := sim_with_web [(example_url, ok_response)].

(** A world in which [example_url] answers 304 with an empty body. *)
Definition sim_not_modified : Sim :=
  sim_with_web [(example_url, not_modified_response)].

(** A first row with two of its four cells non-empty. *)
Definition half_empty_row : Row :=
  {| cells := [text_cell "Name"; text_cell "Photo"; text_cell EmptyString;
               text_cell EmptyString] |}.

(** A first row with one of its five cells non-empty. *)
Definition sparse_row : Row :=
  {| cells := [text_cell "x"; text_cell EmptyString; text_cell EmptyString;
               text_cell EmptyString; text_cell EmptyString] |}.

Definition row_of (texts : list string) : Row :=
  {| cells := map text_cell texts |}.

(** A table whose header row names two columns alike. *)
Definition duplicate_header_doc : Document :=
  [ {| rows := [row_of ["Name"; "Photo"; "Name"];
                row_of ["Al"; "no photo"; "Bo"]];
       columns := 3 |} ].

(** A table whose header row has an empty first name and a second column
    that is named like the synthesized key of the first. *)
Definition clashing_header_doc : Document :=
  [ {| rows := [row_of [EmptyString; "Column 1"]; row_of ["a"; "b"]];
       columns := 2 |} ].

(** A table whose header row has an empty second name. *)
Definition empty_header_doc : Document :=
  [ {| rows := [row_of ["Name"; EmptyString; "Photo"];
                row_of ["Al"; "3"; "no photo"]];
       columns := 3 |} ].

(** A four-column table with a header row and [photo_row]. *)
Definition photo_doc : Document :=
  [ {| rows := [row_of ["Name"; "Age"; "Photo"; "Notes"]; photo_row];
       columns := 4 |} ].

(** The empty store after the folder of the script has been created. *)
Definition folder_created : Sim :=
  {| sim_objects := [("id0", folder_body "DOCX Image Uploads")];
     sim_perm_faults := []; sim_list_down := false; sim_web := [] |}.

(** ** Predicates used to state properties of the helpers *)

(** Every character of [s] satisfies [p]. *)
Fixpoint all_chars (p : ascii -> bool) (s : string) : bool :=
  match s with
  | EmptyString => true
  | String c s' => p c && all_chars p s'
  end.

(** A blank string: white space only. *)
Definition blank (s : string) : bool := all_chars py_isspace s.

(** A string without a double quote. *)
Definition quote_free (s : string) : bool :=
  all_chars (fun c => negb (Ascii.eqb c dquote)) s.

(** A relationship the image extractor passes over: an internal one whose
    part has no content type or one that is not an image type. *)
Definition passed_over (rel : Rel) : bool :=
  match rel with
  | ExternalRel _ => false
  | InternalRel _ p =>
      match content_type p with
      | Some ct => negb (String.prefix "image/" ct)
      | None => true
      end
  end.

(** A header that names the photo column. *)
Definition photo_header (lowered : gset string) (h : string) : bool :=
  bool_decide (lower (strip h) ∈ lowered).

(** The text of a field-code hyperlink: the word HYPERLINK, the white space
    [ws], the URL [u] in double quotes, and the rest [rest]. *)
Definition field_code (ws u rest : string) : string :=
  "HYPERLINK" +:+ ws +:+ String dquote (u +:+ String dquote rest).

(** A table too narrow to be chosen at sight. *)
Definition narrow (t : Table) : bool := columns t <? 3.

(** A cell whose part lists a hyperlink before its image. *)
Definition link_before_image_cell : Cell :=
  {| paragraphs := ["see photo"];
     part_rels := [("rId1", ExternalRel example_url);
                   ("rId2", InternalRel "media/image1.jpeg" jpeg_part)];
     hyperlink_rids := ["rId1"];
     instr_texts := [] |}.


(** The statuses after which the permission grant is not retried include
    404; a world whose next permission call answers 404. *)
Definition sim_perm_not_found : Sim := sim_perm_failing [HttpError 404].

(** A table without rows. *)
Definition empty_table_doc : Document := [ {| rows := []; columns := 4 |} ].

(** The number of rows of the chosen table. *)
Definition chosen_rows (doc : Document) : nat :=
  match choose_table doc with
  | Some table => length (rows table)
  | None => 0
  end.

(** A row without a photo cell: there is no photo column, or the row is too
    short to reach it. *)
Definition no_photo_cell (photo_idx : option nat) (row : Row) : bool :=
  match photo_idx with
  | Some p => length (cells row) <=? p
  | None => true
  end.

(** A world in which every call to the outside raises. *)
Definition offline : exn := OtherError "offline".

Definition offline_env : Env unit := {|
  files_list := fun _ w => (inl offline, w);
  files_create := fun _ _ w => (inl offline, w);
  permissions_create := fun _ w => (inl offline, w);
  time_sleep := fun _ w => w;
  requests_get := fun _ _ w => (inl offline, w)
|}.

(** The output rows of the conversion of [photo_doc] in the empty store. *)
Definition photo_doc_rows : list (gmap string string) :=
  [pack_row ["Name"; "Age"; "Photo"; "Notes"]
     ["Al"; "3"; view_url "id1"; "n"]].

(** Every apostrophe of [s] comes right after a backslash; [prev] tells
    whether the character before [s] is a backslash. *)
Fixpoint quotes_guarded (prev : bool) (s : string) : bool :=
  match s with
  | EmptyString => true
  | String c s' =>
      (if Ascii.eqb c apostrophe then prev else true)
      && quotes_guarded (Ascii.eqb c backslash) s'
  end.

(** A plain-text cell of a part that holds an image (that of another cell):
    it has no hyperlink element and no field code. *)
Definition text_cell_in_image_part (s : string) : Cell :=
  {| paragraphs := [s];
     part_rels := [("rId1", InternalRel "media/image1.jpeg" jpeg_part)];
     hyperlink_rids := [];
     instr_texts := [] |}.

Definition shared_part_row : Row :=
  {| cells := [text_cell_in_image_part "Cy";
               text_cell_in_image_part "no photo"] |}.

(** A cell with an external structural hyperlink and a field-code one. *)
Definition hyperlink_and_field_cell : Cell :=
  {| paragraphs := ["see photo"];
     part_rels := [("rId2", ExternalRel example_url)];
     hyperlink_rids := ["rId2"];
     instr_texts := [Some (" " +:+ field_code " " example_url " \o")] |}.

(** * Properties *)

Ltac unfold_m :=
  unfold mbind, mret, M_bind, M_ret, bind, ret, raise, try_catch, call in *.

(** ** Python strings *)

Example strip_example : strip ("  a b " +:+ newline) = "a b".
Proof. reflexivity. Qed.

Example re_search_example :
  re_search_hyperlink
    (" HYPERLINK  " +:+ String dquote "http://x/y.png" +:+ String dquote " \o")
  = Some "http://x/y.png".
Proof. reflexivity. Qed.

Lemma truthy_true_iff s : truthy s = true <-> s <> EmptyString.
Proof. destruct s; simpl; split; congruence. Qed.

Lemma view_url_truthy fid : truthy (view_url fid) = true.
Proof. reflexivity. Qed.

Lemma column_name_truthy i : truthy (column_name i) = true.
Proof. reflexivity. Qed.

Lemma column_name_inj i j : column_name i = column_name j -> i = j.
Proof.
  unfold column_name. intros H. simpl in H. injection H as H.
  change (pretty (i + 1) = pretty (j + 1)) in H.
  apply (inj (pretty (A:=nat))) in H. lia.
Qed.

Lemma row_key_truthy i h : truthy (row_key i h) = true.
Proof. unfold row_key. destruct (truthy h) eqn:E; [exact E | reflexivity]. Qed.

Lemma row_key_nonempty i h : row_key i h <> EmptyString.
Proof. apply truthy_true_iff, row_key_truthy. Qed.

(** ** The permission grant *)

Section PermissionGrant.
Context {W : Type} (env : Env W).

Lemma retryable_status_spec st :
  retryable_status st = true <-> (st = 403 \/ st = 429 \/ st = 500 \/ st = 503)%Z.
Proof.
  unfold retryable_status. rewrite bool_decide_eq_true.
  rewrite !elem_of_cons, elem_of_nil. tauto.
Qed.

(** C6. The permission grant is tried once; a success ends it.  When the
    first try raises an HttpError with status 403, 429, 500 or 503, the
    script sleeps 2 seconds and tries exactly once more, and whatever the
    second try gives (success or its exception) is the result.  Any other
    exception of the first try propagates at once, with no sleep and no
    second try. *)
Theorem set_public_anyone_reader_retry fid w log :
  (forall w1, permissions_create env fid w = (inr tt, w1) ->
     set_public_anyone_reader env fid (w, log)
     = (inr tt, (w1, log ++ [PermissionsCreate fid])))
  /\ (forall st w1,
        permissions_create env fid w = (inl (HttpError st), w1) ->
        (st = 403 \/ st = 429 \/ st = 500 \/ st = 503)%Z ->
        set_public_anyone_reader env fid (w, log)
        = (fst (permissions_create env fid (time_sleep env 2 w1)),
           (snd (permissions_create env fid (time_sleep env 2 w1)),
            log ++ [PermissionsCreate fid; Sleep 2; PermissionsCreate fid])))
  /\ (forall e w1,
        permissions_create env fid w = (inl e, w1) ->
        (forall st, e = HttpError st ->
           ~ (st = 403 \/ st = 429 \/ st = 500 \/ st = 503)%Z) ->
        set_public_anyone_reader env fid (w, log)
        = (inl e, (w1, log ++ [PermissionsCreate fid]))).
Proof.
  unfold set_public_anyone_reader, call_permissions_create, call_sleep.
  unfold_m. repeat split.
  - intros w1 H. rewrite H. reflexivity.
  - intros st w1 H Hst. rewrite H.
    apply retryable_status_spec in Hst. rewrite Hst.
    destruct (permissions_create env fid (time_sleep env 2 w1)) as [r w3].
    destruct r; simpl; rewrite <- !app_assoc; reflexivity.
  - intros e w1 H Hne. rewrite H. destruct e as [st|what]; [|reflexivity].
    destruct (retryable_status st) eqn:E; [|reflexivity].
    apply retryable_status_spec in E. exfalso. exact (Hne st eq_refl E).
Qed.

End PermissionGrant.

(** A rate-limited first try followed by a failing second try: one sleep,
    two permission calls, and the second failure is the result. *)
Lemma set_public_anyone_reader_retry_witness :
  set_public_anyone_reader sim_env "id7"
    (sim_perm_failing [HttpError 429; HttpError 500], [])
  = (inl (HttpError 500),
     (sim_perm_failing [],
      [PermissionsCreate "id7"; Sleep 2; PermissionsCreate "id7"])).
Proof.
  exact (proj1 (proj2 (set_public_anyone_reader_retry sim_env "id7"
                         (sim_perm_failing [HttpError 429; HttpError 500]) []))
           429%Z (sim_perm_failing [HttpError 500]) eq_refl
           (or_intror (or_introl eq_refl))).
Defined.

(** ** The remote fetcher *)

Section Fetcher.
Context {W : Type} (env : Env W).

(** The fetcher by the outcome of its request. *)
Lemma download_url_bytes_unfold url w log :
  download_url_bytes env url (w, log)
  = match requests_get env url 20 w with
    | (inr r, w1) =>
        (inr (if ((400 <=? status_code r) && (status_code r <? 600))%Z
              then None else Some (content r, header_content_type r)),
         (w1, log ++ [HttpGet url 20]))
    | (inl e, w1) => (inr None, (w1, log ++ [HttpGet url 20]))
    end.
Proof.
  unfold download_url_bytes, call_requests_get, raise_for_status. unfold_m.
  destruct (requests_get env url 20 w) as [[e|r] w1]; [reflexivity|].
  destruct ((400 <=? status_code r)%Z && (status_code r <? 600)%Z); reflexivity.
Qed.

(** C7 (as the code has it). The fetcher makes one request, with timeout 20,
    and never raises.  It returns no data when the request raises (network
    error, timeout) and when the response status is from 400 to 599, the
    statuses for which raise_for_status raises; for every other status,
    2xx or not, it returns the body and the Content-Type header, which may
    be absent. *)
Theorem download_url_bytes_never_raises url w log :
  (exists r w', download_url_bytes env url (w, log)
                = (inr r, (w', log ++ [HttpGet url 20])))
  /\ (forall e w1, requests_get env url 20 w = (inl e, w1) ->
        download_url_bytes env url (w, log)
        = (inr None, (w1, log ++ [HttpGet url 20])))
  /\ (forall r w1, requests_get env url 20 w = (inr r, w1) ->
        (400 <= status_code r < 600)%Z ->
        download_url_bytes env url (w, log)
        = (inr None, (w1, log ++ [HttpGet url 20])))
  /\ (forall r w1, requests_get env url 20 w = (inr r, w1) ->
        ~ (400 <= status_code r < 600)%Z ->
        download_url_bytes env url (w, log)
        = (inr (Some (content r, header_content_type r)),
           (w1, log ++ [HttpGet url 20]))).
Proof.
  rewrite download_url_bytes_unfold.
  destruct (requests_get env url 20 w) as [[e|r] w1] eqn:E.
  - repeat split; try (intros; simplify_eq; reflexivity). eauto.
  - destruct ((400 <=? status_code r)%Z && (status_code r <? 600)%Z) eqn:B.
    + repeat split; try (intros; simplify_eq; reflexivity); [eauto|].
      intros r' w' ? Hn. simplify_eq. exfalso. apply Hn.
      apply andb_prop in B. lia.
    + repeat split; try (intros; simplify_eq; reflexivity); [eauto|].
      intros r' w' ? Hs. simplify_eq.
      apply andb_false_iff in B. lia.
Qed.

End Fetcher.

(** A reachable URL that answers 200: its body and media type come back. *)
Lemma download_url_bytes_never_raises_witness :
  download_url_bytes sim_env example_url (sim_reachable, [])
  = (inr (Some (content ok_response, Some "image/png")),
     (sim_reachable, [HttpGet example_url 20])).
Proof.
  refine (proj2 (proj2 (proj2 (download_url_bytes_never_raises sim_env
            example_url sim_reachable [])))
          ok_response _ eq_refl _).
  simpl. lia.
Defined.

(** C7 as stated fails: a response with the non-2xx status 304 is returned
    as data. *)
Lemma download_url_bytes_non_2xx_counterexample :
  requests_get sim_env example_url 20 sim_not_modified
  = (inr not_modified_response, sim_not_modified)
  /\ ~ (200 <= status_code not_modified_response < 300)%Z
  /\ fst (download_url_bytes sim_env example_url (sim_not_modified, []))
     = inr (Some ([], None)).
Proof. split; [reflexivity|]. split; [simpl; lia | reflexivity]. Qed.

(** ** The image publisher *)

Lemma count_events_app p l1 l2 :
  count_events p (l1 ++ l2) = count_events p l1 + count_events p l2.
Proof. unfold count_events. rewrite List.filter_app, length_app. reflexivity. Qed.

Section Publisher.
Context {W : Type} (env : Env W).

(** The permission grant logs permission calls and sleeps only. *)
Lemma set_public_anyone_reader_log fid w log :
  exists l, snd (snd (set_public_anyone_reader env fid (w, log))) = log ++ l
            /\ count_events is_upload l = 0 /\ count_events is_fetch l = 0.
Proof.
  unfold set_public_anyone_reader, call_permissions_create, call_sleep.
  unfold_m.
  assert (Hdone : forall l : list Event,
             count_events is_upload l = 0 -> count_events is_fetch l = 0 ->
             exists l', log ++ l = log ++ l'
                        /\ count_events is_upload l' = 0
                        /\ count_events is_fetch l' = 0) by eauto.
  destruct (permissions_create env fid w) as [[e|[]] w1]; simpl.
  - destruct e as [st|what]; [|apply Hdone; reflexivity].
    destruct (retryable_status st); [|apply Hdone; reflexivity].
    destruct (permissions_create env fid (time_sleep env 2 w1)) as [r w3].
    destruct r as [e|[]]; simpl; rewrite <- !app_assoc; apply Hdone; reflexivity.
  - apply Hdone; reflexivity.
Qed.

(** What an upload does: one [files().create] with the bytes as media, then
    the permission grant on the new object; its result is the view URL of
    the new object's id. *)
Lemma upload_image_bytes_unfold folder_id name_hint data mime w log :
  let body := {| body_name := name_hint; body_mimeType := None;
                 body_parents := [folder_id] |} in
  let media := Some (data, mime_or_default mime) in
  upload_image_bytes env folder_id name_hint data mime (w, log)
  = match files_create env body media w with
    | (inr file_id, w1) =>
        match set_public_anyone_reader env file_id
                (w1, log ++ [FilesCreate body media]) with
        | (inr _, s2) => (inr (view_url file_id), s2)
        | (inl e, s2) => (inl e, s2)
        end
    | (inl e, w1) => (inl e, (w1, log ++ [FilesCreate body media]))
    end.
Proof.
  unfold upload_image_bytes, call_files_create. unfold_m. simpl.
  destruct (files_create env _ _ w) as [[e|file_id] w1]; reflexivity.
Qed.

Lemma upload_image_bytes_result folder_id name_hint data mime s link s' :
  upload_image_bytes env folder_id name_hint data mime s = (inr link, s') ->
  exists file_id w1,
    files_create env {| body_name := name_hint; body_mimeType := None;
                        body_parents := [folder_id] |}
      (Some (data, mime_or_default mime)) (fst s) = (inr file_id, w1)
    /\ link = view_url file_id.
Proof.
  destruct s as [w log]. rewrite upload_image_bytes_unfold. simpl.
  destruct (files_create env _ _ w) as [[e|file_id] w1]; [discriminate|].
  destruct (set_public_anyone_reader env file_id _) as [[e|u] s2];
    [discriminate|].
  intros H. simplify_eq. eauto.
Qed.

Lemma upload_image_bytes_log folder_id name_hint data mime w log :
  exists l, snd (snd (upload_image_bytes env folder_id name_hint data mime (w, log)))
            = log ++ l
            /\ count_events is_upload l = 1 /\ count_events is_fetch l = 0.
Proof.
  rewrite upload_image_bytes_unfold. simpl.
  destruct (files_create env _ _ w) as [[e|file_id] w1]; simpl.
  - eexists. split; [reflexivity|]. split; reflexivity.
  - match goal with |- context [set_public_anyone_reader env file_id (w1, ?l0)] =>
      destruct (set_public_anyone_reader_log file_id w1 l0) as (l & Hl & Hu & Hf)
    end.
    exists (FilesCreate
              {| body_name := name_hint; body_mimeType := None;
                 body_parents := [folder_id] |}
              (Some (data, mime_or_default mime)) :: l).
    split; [|simpl; unfold count_events in *; simpl; rewrite ?Hu, ?Hf; auto].
    destruct (set_public_anyone_reader env file_id _) as [[e|u] s2];
      simpl in *; rewrite Hl, <- app_assoc; reflexivity.
Qed.

Lemma download_url_bytes_log url w log :
  snd (snd (download_url_bytes env url (w, log))) = log ++ [HttpGet url 20]
  /\ exists r, fst (download_url_bytes env url (w, log)) = inr r.
Proof.
  rewrite download_url_bytes_unfold.
  destruct (requests_get env url 20 w) as [[e|r] w1]; simpl; eauto.
Qed.

End Publisher.

(** ** The extractors *)



(** An external relationship that comes before the image in the part hides
    the image: reading its target part raises and the extractor gives up. *)
Example first_image_hidden_by_external_rel :
  first_image_in [("rId1", ExternalRel example_url);
                  ("rId2", InternalRel "media/image1.jpeg" jpeg_part)] = None.
Proof. reflexivity. Qed.

(** ** The row resolution engine *)

Section RowResolution.
Context {W : Type} (env : Env W).

(** Step 1 decides alone when the extractor finds an image. *)
Lemma resolve_photo_embedded folder_id r_i cell data mime s :
  first_embedded_image_bytes cell = Some (data, mime) ->
  resolve_photo env folder_id r_i cell s
  = match upload_image_bytes env folder_id (photo_name r_i) data (Some mime) s with
    | (inr l, s') => (inr (Some l), s')
    | (inl e, s') => (inl e, s')
    end.
Proof.
  intros H. unfold resolve_photo. rewrite H. unfold_m.
  destruct (upload_image_bytes env folder_id (photo_name r_i) data (Some mime) s)
    as [[e|l] s'] eqn:E; [reflexivity|].
  apply upload_image_bytes_result in E as (file_id & w1 & _ & ->).
  reflexivity.
Qed.

(** Steps 2 and 3 when no image is found: the hyperlink lookup gives nothing
    (its XPath call raises and the exception is swallowed), so the block
    leaves [public_link] unset and makes no call. *)
Lemma resolve_photo_no_image folder_id r_i cell s :
  first_embedded_image_bytes cell = None ->
  resolve_photo env folder_id r_i cell s = (inr None, s).
Proof.
  intros H. unfold resolve_photo. rewrite H. reflexivity.
Qed.

(** The values of a row whose photo cell exists, from the photo step. *)
Lemma row_values_photo folder_id r_i row p cell s :
  cells row !! p = Some cell ->
  row_values env folder_id (Some p) r_i row s
  = match resolve_photo env folder_id r_i cell s with
    | (inr (Some l), s') =>
        (inr (if truthy l then <[p := l]> (map cell_text (cells row))
              else map cell_text (cells row)), s')
    | (inr None, s') => (inr (map cell_text (cells row)), s')
    | (inl e, s') => (inl e, s')
    end.
Proof.
  intros H. unfold row_values. rewrite H. unfold_m.
  destruct (resolve_photo env folder_id r_i cell s) as [[e|[l|]] s'];
    try reflexivity.
  destruct (truthy l); reflexivity.
Qed.

Lemma lookup_replaced (cs : list Cell) p cell l :
  cs !! p = Some cell -> (<[p := l]> (map cell_text cs)) !! p = Some l.
Proof.
  intros H. apply list_lookup_insert_eq.
  rewrite length_map. eapply lookup_lt_Some, H.
Qed.


(** The values of a row whose photo cell has no image in its part: the
    texts of the cells, and no call. *)
Lemma row_values_no_image folder_id r_i row p cell s :
  cells row !! p = Some cell ->
  first_embedded_image_bytes cell = None ->
  row_values env folder_id (Some p) r_i row s
  = (inr (map cell_text (cells row)), s).
Proof.
  intros Hp He.
  rewrite (row_values_photo _ _ _ _ _ _ Hp), (resolve_photo_no_image _ _ _ _ He).
  reflexivity.
Qed.

End RowResolution.


(** C2 (code bug). A photo cell without an image that holds an external
    hyperlink to a reachable URL: fetching the URL would return data, yet
    the hyperlink lookup returns nothing, so the row keeps the text of the
    cell and neither a fetch nor an upload is made. *)
Theorem reachable_hyperlink_not_rehosted :
  direct_hyperlink (part_rels (link_cell example_url))
    (hyperlink_rids (link_cell example_url)) = Some example_url
  /\ first_embedded_image_bytes (link_cell example_url) = None
  /\ fst (download_url_bytes sim_env example_url (sim_reachable, []))
     = inr (Some (content ok_response, Some "image/png"))
  /\ first_hyperlink_url (link_cell example_url) = None
  /\ row_values sim_env "fld" (Some 1) 1 (link_row example_url) (sim_reachable, [])
     = (inr ["Bo"; "see photo"], (sim_reachable, [])).
Proof. repeat split. Qed.

(** C3 (code bug). A photo cell without an image that holds an external
    hyperlink to an unreachable URL: the hyperlink lookup returns nothing,
    so the row keeps the text of the cell, not the URL, and no fetch is
    attempted. *)
Theorem unreachable_hyperlink_not_kept :
  direct_hyperlink (part_rels (link_cell example_url))
    (hyperlink_rids (link_cell example_url)) = Some example_url
  /\ first_embedded_image_bytes (link_cell example_url) = None
  /\ fst (download_url_bytes sim_env example_url (sim_empty, [])) = inr None
  /\ first_hyperlink_url (link_cell example_url) = None
  /\ row_values sim_env "fld" (Some 1) 1 (link_row example_url) (sim_empty, [])
     = (inr ["Bo"; "see photo"], (sim_empty, []))
  /\ "see photo" <> example_url.
Proof. repeat split. discriminate. Qed.

(** C4 (code bug). A photo cell of plain text, with no hyperlink element and
    no field code, in a part that holds the image of another cell: the
    extractor reads the relationships of the part, finds that image, and
    the row gets the view URL of its upload instead of the text of the
    cell. *)
Theorem plain_cell_gets_part_image :
  hyperlink_rids (text_cell_in_image_part "no photo") = []
  /\ instr_texts (text_cell_in_image_part "no photo") = []
  /\ cell_text (text_cell_in_image_part "no photo") = "no photo"
  /\ first_embedded_image_bytes (text_cell_in_image_part "no photo")
     = Some (blob jpeg_part, "image/jpeg")
  /\ fst (row_values sim_env "fld" (Some 1) 1 shared_part_row (sim_empty, []))
     = inr ["Cy"; view_url "id0"]
  /\ snd (snd (row_values sim_env "fld" (Some 1) 1 shared_part_row (sim_empty, [])))
     = [FilesCreate {| body_name := "row1_photo"; body_mimeType := None;
                       body_parents := ["fld"] |}
          (Some (blob jpeg_part, "image/jpeg"));
        PermissionsCreate "id0"].
Proof. repeat split. Qed.

Example plain_row_value :
  map cell_text (cells plain_row) !! 1 = Some "no photo".
Proof. reflexivity. Qed.

(** ** Header detection *)

Lemma synthetic_headers_lookup n i :
  i < n -> synthetic_headers n !! i = Some ("Column " +:+ pretty (i + 1)).
Proof.
  intros H. unfold synthetic_headers.
  change (map column_name (seq 0 n)) with (column_name <$> seq 0 n).
  rewrite list_lookup_fmap, lookup_seq_lt by exact H. reflexivity.
Qed.

(** C5 (as the code has it). The first row is a header exactly when its
    number of non-empty cells reaches max(1, floor(6n/10)) for n cells; it
    is then the header list and the data rows are the rest.  Otherwise the
    headers are Column 1 to Column n and every row is data.  A row with at
    least one cell and at least 60 percent of them non-empty is always a
    header. *)
Theorem header_detection first_row table_rows :
  let headers := map cell_text (cells first_row) in
  let n := length headers in
  (header_like headers = true <-> Nat.max 1 (n * 6 / 10) <= nonempty_count headers)
  /\ (header_like headers = true ->
      build_headers first_row table_rows = (headers, tail table_rows))
  /\ (header_like headers = false ->
      build_headers first_row table_rows = (synthetic_headers n, table_rows)
      /\ length (synthetic_headers n) = n
      /\ forall i, i < n ->
           synthetic_headers n !! i = Some ("Column " +:+ pretty (i + 1)))
  /\ (0 < n -> 6 * n <= 10 * nonempty_count headers -> header_like headers = true).
Proof.
  intros headers n. unfold build_headers. fold headers.
  assert (Hn : length (cells first_row) = n)
    by (unfold n, headers; rewrite length_map; reflexivity).
  assert (Hiff : header_like headers = true
                 <-> Nat.max 1 (n * 6 / 10) <= nonempty_count headers).
  { unfold header_like, header_threshold. fold n. apply Nat.leb_le. }
  split; [exact Hiff|]. split; [intros ->; reflexivity|].
  split.
  - intros ->. rewrite Hn. split; [reflexivity|]. split.
    + unfold synthetic_headers. rewrite length_map, length_seq. reflexivity.
    + apply synthetic_headers_lookup.
  - intros Hpos H60. apply Hiff.
    assert (n * 6 / 10 <= nonempty_count headers).
    { apply Nat.Div0.div_le_upper_bound. lia. }
    lia.
Qed.

Lemma header_detection_witness :
  header_like (map cell_text (cells photo_row)) = true
  /\ header_like (map cell_text (cells sparse_row)) = false
  /\ build_headers sparse_row [sparse_row]
     = (["Column 1"; "Column 2"; "Column 3"; "Column 4"; "Column 5"],
        [sparse_row]).
Proof.
  split.
  - apply (proj2 (proj2 (proj2 (header_detection photo_row [])))); simpl; lia.
  - split; [reflexivity|].
    exact (proj1 (proj1 (proj2 (proj2 (header_detection sparse_row [sparse_row])))
                    eq_refl)).
Defined.

(** C5 as stated fails: two non-empty cells out of four is below 60 percent,
    and the row is still taken as the header. *)
Lemma header_below_threshold_counterexample :
  nonempty_count (map cell_text (cells half_empty_row)) = 2
  /\ length (cells half_empty_row) = 4
  /\ 10 * 2 < 6 * 4
  /\ build_headers half_empty_row [half_empty_row; plain_row]
     = (["Name"; "Photo"; EmptyString; EmptyString], [plain_row]).
Proof. repeat split. lia. Qed.

(** ** Folder resolution *)

Section FolderResolution.
Context {W : Type} (env : Env W).

(** The two paths of find-or-create: a successful, non-empty listing gives
    its first entry and nothing is created; an empty or failed listing is
    followed by the creation of a folder. *)
Lemma find_or_create_folder_unfold name w log :
  find_or_create_folder env name (w, log)
  = match files_list env (folder_query name) w with
    | (inr (f :: _), w1) =>
        (inr (entry_id f), (w1, log ++ [FilesList (folder_query name)]))
    | (_, w1) =>
        (fst (files_create env (folder_body name) None w1),
         (snd (files_create env (folder_body name) None w1),
          log ++ [FilesList (folder_query name);
                  FilesCreate (folder_body name) None]))
    end.
Proof.
  unfold find_or_create_folder, call_files_list, call_files_create.
  unfold_m.
  destruct (files_list env (folder_query name) w) as [[e|[|f fs]] w1]; simpl;
    try reflexivity;
    destruct (files_create env _ None w1) as [r w2]; simpl;
    rewrite <- app_assoc; reflexivity.
Qed.

(** C8 (as the code has it). A listing that succeeds with at least one
    entry gives the id of its first entry and nothing is created; a listing
    that is empty or raises is followed by one folder creation, whose
    outcome is the result.  Hence, when a first call has returned a folder
    id and the listing then succeeds and reports that folder first, a second
    call with the same name returns the same id, and its only call is the
    listing. *)
Theorem find_or_create_folder_reuse name w log :
  (forall f fs w1,
     files_list env (folder_query name) w = (inr (f :: fs), w1) ->
     find_or_create_folder env name (w, log)
     = (inr (entry_id f), (w1, log ++ [FilesList (folder_query name)])))
  /\ (forall r w1,
        files_list env (folder_query name) w = (r, w1) ->
        r = inr [] \/ (exists e, r = inl e) ->
        find_or_create_folder env name (w, log)
        = (fst (files_create env (folder_body name) None w1),
           (snd (files_create env (folder_body name) None w1),
            log ++ [FilesList (folder_query name);
                    FilesCreate (folder_body name) None])))
  /\ (forall id s1 f fs w2,
        find_or_create_folder env name (w, log) = (inr id, s1) ->
        files_list env (folder_query name) (fst s1) = (inr (f :: fs), w2) ->
        entry_id f = id ->
        find_or_create_folder env name s1
        = (inr id, (w2, snd s1 ++ [FilesList (folder_query name)]))).
Proof.
  split; [|split].
  - intros f fs w1 Hl. rewrite find_or_create_folder_unfold, Hl. reflexivity.
  - intros r w1 Hl [->|[e ->]];
      rewrite find_or_create_folder_unfold, Hl; reflexivity.
  - intros id [w1 log1] f fs w2 _ Hl Hid.
    rewrite find_or_create_folder_unfold. simpl in Hl. rewrite Hl, Hid.
    reflexivity.
Qed.

End FolderResolution.

(** In the simulated store with a working listing, find-or-create is
    idempotent for every name and every state: the second call returns the
    id of the first and leaves the store as the first left it. *)
Lemma sim_find_or_create_folder_idempotent name (w : Sim) log id s1 :
  sim_list_down w = false ->
  find_or_create_folder sim_env name (w, log) = (inr id, s1) ->
  find_or_create_folder sim_env name s1
  = (inr id, (fst s1, snd s1 ++ [FilesList (folder_query name)])).
Proof.
  intros Hup H1. rewrite find_or_create_folder_unfold in H1.
  simpl in H1. unfold sim_files_list in H1. rewrite Hup in H1.
  destruct (List.filter (sim_is_folder_named (folder_query name)) (sim_objects w))
    as [|o os] eqn:Ef; simpl in H1; simplify_eq.
  - rewrite find_or_create_folder_unfold. simpl. unfold sim_files_list. simpl.
    rewrite Hup, List.filter_app, Ef. simpl.
    unfold sim_is_folder_named. simpl.
    rewrite !bool_decide_eq_true_2 by reflexivity. reflexivity.
  - rewrite find_or_create_folder_unfold. simpl. unfold sim_files_list.
    rewrite Hup, Ef. reflexivity.
Qed.

(** Two calls on the empty store: the first creates the folder, the second
    finds it. *)
Lemma find_or_create_folder_reuse_witness :
  find_or_create_folder sim_env "DOCX Image Uploads" (sim_empty, [])
  = (inr "id0",
     (folder_created,
      [FilesList (folder_query "DOCX Image Uploads");
       FilesCreate (folder_body "DOCX Image Uploads") None]))
  /\ find_or_create_folder sim_env "DOCX Image Uploads"
       (folder_created,
        [FilesList (folder_query "DOCX Image Uploads");
         FilesCreate (folder_body "DOCX Image Uploads") None])
     = (inr "id0",
        (folder_created,
         [FilesList (folder_query "DOCX Image Uploads");
          FilesCreate (folder_body "DOCX Image Uploads") None;
          FilesList (folder_query "DOCX Image Uploads")])).
Proof.
  split.
  - exact (proj1 (proj2 (find_or_create_folder_reuse sim_env
                           "DOCX Image Uploads" sim_empty []))
             (inr []) sim_empty eq_refl (or_introl eq_refl)).
  - exact (proj2 (proj2 (find_or_create_folder_reuse sim_env
                           "DOCX Image Uploads" sim_empty []))
             "id0"
             (folder_created,
              [FilesList (folder_query "DOCX Image Uploads");
               FilesCreate (folder_body "DOCX Image Uploads") None])
             {| entry_id := "id0"; entry_name := "DOCX Image Uploads" |} []
             folder_created eq_refl eq_refl eq_refl).
Defined.

(** C8 as stated fails: while the listing call raises, each call creates a
    folder, so two calls return two ids and leave two folders of that name. *)
Lemma find_or_create_folder_duplicate_counterexample :
  fst (find_or_create_folder sim_env "DOCX Image Uploads" (sim_listing_down, []))
  = inr "id0"
  /\ fst (find_or_create_folder sim_env "DOCX Image Uploads"
            (snd (find_or_create_folder sim_env "DOCX Image Uploads"
                    (sim_listing_down, []))))
     = inr "id1"
  /\ map (fun o => body_name (snd o))
       (sim_objects
          (fst (snd (find_or_create_folder sim_env "DOCX Image Uploads"
                       (snd (find_or_create_folder sim_env "DOCX Image Uploads"
                               (sim_listing_down, [])))))))
     = ["DOCX Image Uploads"; "DOCX Image Uploads"].
Proof. repeat split. Qed.

(** ** Packing a row *)

Lemma pack_from_miss i hs (values : list string) (d : gmap string string) k :
  (forall j h, hs !! j = Some h -> row_key (i + j) h <> k) ->
  pack_from i hs values d !! k = d !! k.
Proof.
  revert i d. induction hs as [|h0 hs IH]; intros i d H; simpl; [reflexivity|].
  rewrite IH.
  - apply lookup_insert_ne. specialize (H 0 h0 eq_refl).
    rewrite Nat.add_0_r in H. exact H.
  - intros j h Hj. specialize (H (S j) h Hj).
    rewrite Nat.add_succ_r in H. exact H.
Qed.

(** The value under the key of column [n] is the value of column [n] when no
    later column has the same key. *)
Lemma pack_from_hit i hs (values : list string) (d : gmap string string) n h :
  hs !! n = Some h ->
  (forall j h', n < j -> hs !! j = Some h' ->
                row_key (i + j) h' <> row_key (i + n) h) ->
  pack_from i hs values d !! row_key (i + n) h
  = Some (default EmptyString (values !! (i + n))).
Proof.
  revert i d n. induction hs as [|h0 hs IH]; intros i d n Hn H; [discriminate|].
  destruct n as [|n]; simpl in *.
  - simplify_eq. rewrite Nat.add_0_r in *. rewrite pack_from_miss.
    + apply lookup_insert_eq.
    + intros j h' Hj. specialize (H (S j) h' ltac:(lia) Hj).
      rewrite Nat.add_succ_r in H. exact H.
  - replace (i + S n) with (S i + n) by lia. apply IH; [exact Hn|].
    intros j h' Hlt Hj. specialize (H (S j) h' ltac:(lia) Hj).
    replace (i + S j) with (S i + j) in H by lia.
    replace (i + S n) with (S i + n) in H by lia. exact H.
Qed.

Lemma pack_row_hit hs (values : list string) n h :
  hs !! n = Some h ->
  (forall j h', n < j -> hs !! j = Some h' -> row_key j h' <> row_key n h) ->
  pack_row hs values !! row_key n h = Some (default EmptyString (values !! n)).
Proof. intros Hn H. exact (pack_from_hit 0 hs values ∅ n h Hn H). Qed.

(** No value is ever stored under the empty name. *)
Lemma pack_row_no_empty_key hs (values : list string) :
  pack_row hs values !! EmptyString = None.
Proof.
  unfold pack_row. rewrite pack_from_miss; [apply lookup_empty|].
  intros j h _. apply row_key_nonempty.
Qed.

(** ** Rows *)

Section Rows.
Context {W : Type} (env : Env W).

Lemma resolve_photo_log folder_id r_i cell w log :
  exists l, snd (snd (resolve_photo env folder_id r_i cell (w, log))) = log ++ l
            /\ count_events is_upload l <= 1 /\ count_events is_fetch l <= 1.
Proof.
  destruct (first_embedded_image_bytes cell) as [[data mime]|] eqn:He.
  - rewrite (resolve_photo_embedded _ _ _ _ _ _ _ He).
    destruct (upload_image_bytes_log env folder_id (photo_name r_i) data
                (Some mime) w log) as (l & Hl & Hu & Hf).
    exists l. destruct (upload_image_bytes env _ _ _ _ _) as [[e|link] s1];
      simpl in *; (split; [exact Hl|lia]).
  - rewrite (resolve_photo_no_image _ _ _ _ _ He). exists [].
    simpl. rewrite app_nil_r. unfold count_events. simpl. auto.
Qed.

Lemma row_values_log folder_id photo_idx r_i row w log :
  exists l, snd (snd (row_values env folder_id photo_idx r_i row (w, log))) = log ++ l
            /\ count_events is_upload l <= 1 /\ count_events is_fetch l <= 1.
Proof.
  assert (Hnone : exists l : list Event,
             log = log ++ l /\ count_events is_upload l <= 1
             /\ count_events is_fetch l <= 1).
  { exists []. rewrite app_nil_r. unfold count_events. simpl. auto. }
  destruct photo_idx as [p|]; [|exact Hnone].
  destruct (cells row !! p) as [cell|] eqn:Hp.
  - rewrite (row_values_photo _ _ _ _ _ _ _ Hp).
    destruct (resolve_photo_log folder_id r_i cell w log) as (l & Hl & Hb).
    exists l. split; [|exact Hb].
    destruct (resolve_photo env folder_id r_i cell (w, log)) as [[e|[link|]] s'];
      exact Hl.
  - unfold row_values. rewrite Hp. exact Hnone.
Qed.

(** The photo step writes index [photo_idx] and nothing else. *)
Lemma row_values_frame folder_id photo_idx r_i row s values s' :
  row_values env folder_id photo_idx r_i row s = (inr values, s') ->
  length values = length (cells row)
  /\ forall i, photo_idx <> Some i -> values !! i = cell_text <$> cells row !! i.
Proof.
  assert (Hsame : length (map cell_text (cells row)) = length (cells row)
                  /\ forall i, photo_idx <> Some i ->
                       map cell_text (cells row) !! i = cell_text <$> cells row !! i).
  { split; [apply length_map|]. intros i _. apply list_lookup_fmap. }
  unfold row_values. unfold_m.
  destruct photo_idx as [p|]; [|intros H; simplify_eq; exact Hsame].
  destruct (cells row !! p) as [cell|]; [|intros H; simplify_eq; exact Hsame].
  destruct (resolve_photo env folder_id r_i cell s) as [[e|[link|]] s1];
    [discriminate| |intros H; simplify_eq; exact Hsame].
  destruct (truthy link); intros H; simplify_eq; [|exact Hsame].
  split.
  - rewrite length_insert. apply length_map.
  - intros i Hi. rewrite list_lookup_insert_ne by congruence.
    apply list_lookup_fmap.
Qed.

Lemma process_row_pack folder_id headers photo_idx r_i row s :
  process_row env folder_id headers photo_idx r_i row s
  = match row_values env folder_id photo_idx r_i row s with
    | (inr values, s') => (inr (pack_row headers values), s')
    | (inl e, s') => (inl e, s')
    end.
Proof.
  unfold process_row. unfold_m.
  destruct (row_values env folder_id photo_idx r_i row s) as [[e|values] s'];
    reflexivity.
Qed.

(** C9 (as the code has it). In the values of a data row every index other
    than the photo index holds the text of its cell.  In the packed row the
    key of a non-photo column holds the text of its cell (the empty string
    when the row has no such cell) provided no later column has the same
    key.  One row makes at most one upload and at most one fetch. *)
Theorem non_photo_values_preserved folder_id headers photo_idx r_i row w log :
  (forall values s',
     row_values env folder_id photo_idx r_i row (w, log) = (inr values, s') ->
     forall i, photo_idx <> Some i ->
       values !! i = cell_text <$> cells row !! i)
  /\ (forall row_dict s',
        process_row env folder_id headers photo_idx r_i row (w, log)
        = (inr row_dict, s') ->
        forall i h,
          headers !! i = Some h -> photo_idx <> Some i ->
          (forall j h', i < j -> headers !! j = Some h' ->
                        row_key j h' <> row_key i h) ->
          row_dict !! row_key i h
          = Some (default EmptyString (cell_text <$> cells row !! i)))
  /\ (forall r s',
        process_row env folder_id headers photo_idx r_i row (w, log) = (r, s') ->
        exists l, snd s' = log ++ l
                  /\ count_events is_upload l <= 1
                  /\ count_events is_fetch l <= 1).
Proof.
  split; [|split].
  - intros values s' H. exact (proj2 (row_values_frame _ _ _ _ _ _ _ H)).
  - intros row_dict s' H i h Hi Hne Hlast.
    rewrite process_row_pack in H.
    destruct (row_values env folder_id photo_idx r_i row (w, log))
      as [[e|values] s1] eqn:E; [discriminate|].
    simplify_eq. rewrite (pack_row_hit _ _ _ _ Hi Hlast).
    rewrite (proj2 (row_values_frame _ _ _ _ _ _ _ E) i Hne). reflexivity.
  - intros r s' H. rewrite process_row_pack in H.
    destruct (row_values_log folder_id photo_idx r_i row w log) as (l & Hl & Hb).
    exists l. split; [|exact Hb].
    destruct (row_values env folder_id photo_idx r_i row (w, log))
      as [[e|values] s1]; simplify_eq; exact Hl.
Qed.

(** C10 (as the code has it). When the first row is header-like and its
    header at index i is empty, the column order keeps the empty name at i,
    the packed row has nothing under the empty name, and it holds the value
    of column i under Column i+1 provided no later header is literally
    Column i+1. *)
Theorem empty_header_synthesized_key first_row table_rows folder_id photo_idx
    r_i row s i values s' :
  header_like (map cell_text (cells first_row)) = true ->
  map cell_text (cells first_row) !! i = Some EmptyString ->
  row_values env folder_id photo_idx r_i row s = (inr values, s') ->
  let headers := fst (build_headers first_row table_rows) in
  headers !! i = Some EmptyString
  /\ exists row_dict,
       process_row env folder_id headers photo_idx r_i row s = (inr row_dict, s')
       /\ row_dict !! EmptyString = None
       /\ ((forall j h', i < j -> headers !! j = Some h' ->
                         h' <> "Column " +:+ pretty (i + 1)) ->
           row_dict !! ("Column " +:+ pretty (i + 1))
           = Some (default EmptyString (values !! i))).
Proof.
  intros Hl Hi Hv headers.
  assert (Hh : headers = map cell_text (cells first_row)).
  { unfold headers, build_headers. rewrite Hl. reflexivity. }
  rewrite Hh. split; [exact Hi|].
  exists (pack_row (map cell_text (cells first_row)) values).
  rewrite process_row_pack, Hv. split; [reflexivity|].
  split; [apply pack_row_no_empty_key|].
  intros Hlater.
  change ("Column " +:+ pretty (i + 1)) with (row_key i EmptyString).
  apply pack_row_hit; [exact Hi|].
  intros j h' Hlt Hj. unfold row_key at 1.
  destruct (truthy h') eqn:Ht.
  - exact (Hlater j h' Hlt Hj).
  - intros Heq. apply column_name_inj in Heq. lia.
Qed.

End Rows.

(** In [photo_row] under the headers Name, Age, Photo, Notes the first
    column keeps its text. *)
Lemma non_photo_values_preserved_witness :
  pack_row ["Name"; "Age"; "Photo"; "Notes"]
    (<[2 := view_url "id0"]> (map cell_text (cells photo_row))) !! "Name"
  = Some "Al".
Proof.
  refine (proj1 (proj2 (non_photo_values_preserved sim_env "fld"
                          ["Name"; "Age"; "Photo"; "Notes"] (Some 2) 1
                          photo_row sim_empty []))
            _ _ eq_refl 0 "Name" eq_refl _ _).
  - discriminate.
  - intros j h' Hlt Hj.
    destruct j as [|[|[|[|j]]]]; simpl in Hj; simplify_eq; try discriminate.
    lia.
Defined.

(** C9 as stated fails: under two columns named alike, the packed row holds
    the text of the later one, and the text of the first is gone. *)
Lemma duplicate_header_counterexample :
  exists row_dict s',
    convert_docx_to_excel_with_drive sim_env duplicate_header_doc
      "DOCX Image Uploads" PHOTO_HEADER_CANDIDATES (sim_empty, [])
    = (inr ([row_dict], ["Name"; "Photo"; "Name"]), s')
    /\ row_dict !! row_key 0 "Name" = Some "Bo"
    /\ cell_text <$> cells (row_of ["Al"; "no photo"; "Bo"]) !! 0 = Some "Al".
Proof.
  eexists _, _. split; [vm_compute; reflexivity|].
  split; vm_compute; reflexivity.
Qed.

(** Headers Name, empty, Photo: the value 3 of the second column is under
    Column 2 and nothing is under the empty name. *)
Lemma empty_header_synthesized_key_witness :
  fst (build_headers (row_of ["Name"; EmptyString; "Photo"]) []) !! 1
  = Some EmptyString
  /\ exists row_dict,
       process_row sim_env "fld"
         (fst (build_headers (row_of ["Name"; EmptyString; "Photo"]) []))
         (Some 2) 1 (row_of ["Al"; "3"; "no photo"]) (sim_empty, [])
       = (inr row_dict, (sim_empty, []))
       /\ row_dict !! EmptyString = None
       /\ row_dict !! "Column 2" = Some "3".
Proof.
  destruct (empty_header_synthesized_key sim_env
              (row_of ["Name"; EmptyString; "Photo"]) [] "fld" (Some 2) 1
              (row_of ["Al"; "3"; "no photo"]) (sim_empty, []) 1
              ["Al"; "3"; "no photo"] (sim_empty, []) eq_refl eq_refl eq_refl)
    as (Hcol & row_dict & Hrun & Hempty & Hkey).
  split; [exact Hcol|]. exists row_dict.
  split; [exact Hrun|]. split; [exact Hempty|].
  apply Hkey. intros j h' Hlt Hj.
  destruct j as [|[|[|j]]]; simpl in Hj; simplify_eq; try discriminate; lia.
Defined.

(** The conversion of [empty_header_doc]: the value 3 of the column with the
    empty header is under Column 2, and the column order has the empty
    name. *)
Example empty_header_conversion :
  exists row_dict s',
    convert_docx_to_excel_with_drive sim_env empty_header_doc
      "DOCX Image Uploads" PHOTO_HEADER_CANDIDATES (sim_empty, [])
    = (inr ([row_dict], ["Name"; EmptyString; "Photo"]), s')
    /\ row_dict !! "Column 2" = Some "3"
    /\ row_dict !! EmptyString = None.
Proof.
  eexists _, _. split; [vm_compute; reflexivity|].
  split; vm_compute; reflexivity.
Qed.

(** C10 as stated fails: when a later header is literally Column 1, the
    value stored under Column 1 is that later column's, not the value of
    the column with the empty header. *)
Lemma empty_header_overwritten_counterexample :
  header_like (map cell_text (cells (row_of [EmptyString; "Column 1"]))) = true
  /\ exists row_dict s',
       convert_docx_to_excel_with_drive sim_env clashing_header_doc
         "DOCX Image Uploads" PHOTO_HEADER_CANDIDATES (sim_empty, [])
       = (inr ([row_dict], [EmptyString; "Column 1"]), s')
       /\ row_dict !! ("Column " +:+ pretty (0 + 1)) = Some "b"
       /\ cell_text <$> cells (row_of ["a"; "b"]) !! 0 = Some "a".
Proof.
  split; [reflexivity|].
  eexists _, _. split; [vm_compute; reflexivity|].
  split; vm_compute; reflexivity.
Qed.

(** ** The loop over the data rows *)

Section Loop.
Context {W : Type} (env : Env W).

(** A conversion that returns has run [process_row] on every data row, in
    order, numbering the rows from [r_i]; each output row is the result of
    its data row. *)
Lemma process_rows_each folder_id headers photo_idx data_rows :
  forall r_i s rows_out s',
    process_rows env folder_id headers photo_idx r_i data_rows s
    = (inr rows_out, s') ->
    length rows_out = length data_rows
    /\ forall k row, data_rows !! k = Some row ->
         exists sk sk' row_dict,
           process_row env folder_id headers photo_idx (r_i + k) row sk
           = (inr row_dict, sk')
           /\ rows_out !! k = Some row_dict.
Proof.
  induction data_rows as [|row0 rest IH]; intros r_i s rows_out s' H.
  - simpl in H. unfold_m. simplify_eq. split; [reflexivity|].
    intros k row Hk. discriminate.
  - simpl in H. unfold_m.
    destruct (process_row env folder_id headers photo_idx r_i row0 s)
      as [[e|d0] s1] eqn:E0; [discriminate|].
    destruct (process_rows env folder_id headers photo_idx (S r_i) rest s1)
      as [[e|ds] s2] eqn:E1; [discriminate|].
    simplify_eq. destruct (IH _ _ _ _ E1) as [Hlen Heach].
    split; [simpl; rewrite Hlen; reflexivity|].
    intros [|k] row Hk; simpl in Hk.
    + simplify_eq. rewrite Nat.add_0_r. eauto.
    + destruct (Heach k row Hk) as (sk & sk' & d & Hd & Hl).
      replace (r_i + S k) with (S r_i + k) by lia. eauto.
Qed.

(** The steps of a conversion that returns. *)
Lemma convert_steps doc folder_name candidates s rows_out headers s' :
  convert_docx_to_excel_with_drive env doc folder_name candidates s
  = (inr (rows_out, headers), s') ->
  exists table first_row data_rows folder_id s1,
    choose_table doc = Some table
    /\ head (rows table) = Some first_row
    /\ build_headers first_row (rows table) = (headers, data_rows)
    /\ find_or_create_folder env folder_name s = (inr folder_id, s1)
    /\ process_rows env folder_id headers
         (find_photo_idx (set_map lower candidates) 0 headers) 1 data_rows s1
       = (inr rows_out, s').
Proof.
  unfold convert_docx_to_excel_with_drive. unfold_m.
  destruct (choose_table doc) as [table|]; [|discriminate].
  destruct (rows table) as [|first_row rest] eqn:Er; [discriminate|].
  destruct (build_headers first_row (first_row :: rest)) as [hs data_rows] eqn:Eb.
  destruct (find_or_create_folder env folder_name s) as [[e|folder_id] s1] eqn:Ef;
    [discriminate|].
  destruct (process_rows env folder_id hs _ 1 data_rows s1) as [[e|ro] s2] eqn:Ep;
    [discriminate|].
  intros H. simplify_eq.
  exists table, first_row, data_rows, folder_id, s1.
  rewrite Er. simpl. rewrite Eb. auto.
Qed.

End Loop.

(** ** A whole conversion *)

(** A four-column table with a header row and one data row whose photo cell
    has an image: four columns come out and the photo value is the view URL
    of the uploaded object, the folder being the first object created. *)
Example conversion_with_embedded_image :
  exists row_dict s',
    convert_docx_to_excel_with_drive sim_env photo_doc
      "DOCX Image Uploads" PHOTO_HEADER_CANDIDATES (sim_empty, [])
    = (inr ([row_dict], ["Name"; "Age"; "Photo"; "Notes"]), s')
    /\ row_dict !! "Photo" = Some "https://drive.google.com/uc?export=view&id=id1"
    /\ row_dict !! "Name" = Some "Al"
    /\ snd s'
       = [FilesList (folder_query "DOCX Image Uploads");
          FilesCreate (folder_body "DOCX Image Uploads") None;
          FilesCreate {| body_name := "row1_photo"; body_mimeType := None;
                         body_parents := ["id0"] |}
            (Some (blob jpeg_part, "image/jpeg"));
          PermissionsCreate "id1"].
Proof.
  eexists _, _. split; [vm_compute; reflexivity|].
  repeat split; vm_compute; reflexivity.
Qed.

(** A table of fewer than three columns that comes before a wider one is
    skipped. *)
Example choose_table_skips_narrow :
  choose_table [ {| rows := []; columns := 2 |}; {| rows := []; columns := 5 |} ]
  = Some {| rows := []; columns := 5 |}.
Proof. reflexivity. Qed.

(** * Further properties of the helpers *)

(** ** Stripping *)

Lemma lstrip_blank_iff s : lstrip s = EmptyString <-> blank s = true.
Proof.
  unfold blank. induction s as [|c s IH]; simpl; [tauto|].
  destruct (py_isspace c); simpl; [exact IH|]. split; discriminate.
Qed.

Lemma rstrip_blank_iff s : rstrip s = EmptyString <-> blank s = true.
Proof.
  unfold blank. induction s as [|c s IH]; simpl; [tauto|].
  destruct (rstrip s) as [|c' r] eqn:E.
  - destruct (py_isspace c); simpl; [tauto|]. split; discriminate.
  - split; [discriminate|]. intros H. apply andb_prop in H as [_ H].
    apply IH in H. discriminate.
Qed.

Lemma blank_rstrip s : blank (rstrip s) = blank s.
Proof.
  unfold blank. induction s as [|c s IH]; simpl; [reflexivity|].
  destruct (rstrip s) as [|c' r] eqn:E.
  - assert (H : all_chars py_isspace s = true) by (apply rstrip_blank_iff; exact E).
    rewrite H. destruct (py_isspace c) eqn:Ec; simpl; rewrite ?Ec; reflexivity.
  - simpl in *. rewrite IH. reflexivity.
Qed.

Lemma strip_blank_iff s : strip s = EmptyString <-> blank s = true.
Proof.
  unfold strip. rewrite lstrip_blank_iff, blank_rstrip. tauto.
Qed.

Lemma rstrip_idem s : rstrip (rstrip s) = rstrip s.
Proof.
  induction s as [|c s IH]; simpl; [reflexivity|].
  destruct (rstrip s) as [|c' r] eqn:E.
  - destruct (py_isspace c) eqn:Ec; simpl; [reflexivity|]. rewrite Ec. reflexivity.
  - simpl in *. rewrite IH. reflexivity.
Qed.

Lemma lstrip_idem s : lstrip (lstrip s) = lstrip s.
Proof.
  induction s as [|c s IH]; simpl; [reflexivity|].
  destruct (py_isspace c) eqn:Ec; [exact IH|]. simpl. rewrite Ec. reflexivity.
Qed.

(** Stripping on the left keeps a string free of trailing white space. *)
Lemma rstrip_lstrip_fixed t : rstrip t = t -> rstrip (lstrip t) = lstrip t.
Proof.
  induction t as [|c t IH]; simpl; [reflexivity|].
  intros H. destruct (py_isspace c) eqn:Ec.
  - apply IH. destruct (rstrip t) as [|c' r] eqn:E.
    + discriminate.
    + congruence.
  - simpl. rewrite Ec. exact H.
Qed.

Lemma rstrip_strip s : rstrip (strip s) = strip s.
Proof. unfold strip. apply rstrip_lstrip_fixed, rstrip_idem. Qed.

Lemma lstrip_strip s : lstrip (strip s) = strip s.
Proof. unfold strip. apply lstrip_idem. Qed.

Lemma strip_idem s : strip (strip s) = strip s.
Proof.
  unfold strip at 1. rewrite rstrip_strip. apply lstrip_strip.
Qed.

Lemma lstrip_head s c r : lstrip s = String c r -> py_isspace c = false.
Proof.
  induction s as [|c0 s IH]; simpl; [discriminate|].
  destruct (py_isspace c0) eqn:E; [exact IH|]. intros H. congruence.
Qed.

Lemma blank_lstrip s : blank (lstrip s) = blank s.
Proof.
  unfold blank. induction s as [|c s IH]; simpl; [reflexivity|].
  destruct (py_isspace c) eqn:Ec; simpl; rewrite ?Ec; [exact IH|reflexivity].
Qed.

Lemma blank_strip s : blank (strip s) = blank s.
Proof. unfold strip. rewrite blank_lstrip. apply blank_rstrip. Qed.

Lemma all_chars_append p a b :
  all_chars p (a +:+ b) = all_chars p a && all_chars p b.
Proof.
  induction a as [|c a IH]; simpl; [reflexivity|].
  rewrite IH. apply andb_assoc.
Qed.

Lemma blank_join_newline l : blank (join newline l) = forallb blank l.
Proof.
  unfold blank. induction l as [|x l IH]; [reflexivity|].
  destruct l as [|y l].
  - simpl. rewrite andb_true_r. reflexivity.
  - change (join newline (x :: y :: l))
      with (x +:+ newline +:+ join newline (y :: l)).
    rewrite !all_chars_append, IH. reflexivity.
Qed.

(** ** The text of a cell *)

Lemma cell_text_strip_fixed cell : strip (cell_text cell) = cell_text cell.
Proof. unfold cell_text. cbv zeta. apply strip_idem. Qed.

Lemma cell_text_blank cell :
  cell_text cell = EmptyString <-> forallb blank (paragraphs cell) = true.
Proof.
  unfold cell_text. cbv zeta.
  rewrite strip_blank_iff, blank_join_newline.
  induction (paragraphs cell) as [|p ps IH]; simpl; [tauto|].
  rewrite blank_strip, !andb_true_iff. tauto.
Qed.

(** X1. The text of a cell has no white space at either end: stripping it
    again, on either side or on both, changes nothing, and its first
    character, when there is one, is not white space. *)
Theorem cell_text_stripped cell :
  strip (cell_text cell) = cell_text cell
  /\ lstrip (cell_text cell) = cell_text cell
  /\ rstrip (cell_text cell) = cell_text cell
  /\ forall c r, cell_text cell = String c r -> py_isspace c = false.
Proof.
  split; [apply cell_text_strip_fixed|].
  unfold cell_text. cbv zeta.
  split; [apply lstrip_strip|]. split; [apply rstrip_strip|].
  intros c r H. unfold strip in H. exact (lstrip_head _ _ _ H).
Qed.

Lemma cell_text_stripped_witness : py_isspace "n"%char = false.
Proof.
  exact (proj2 (proj2 (proj2 (cell_text_stripped (text_cell "  no photo "))))
           "n"%char "o photo" eq_refl).
Defined.

(** X2. The text of a cell is empty exactly when every paragraph of the cell
    is blank (white space only); in particular a cell without paragraphs
    reads as the empty string. *)
Theorem cell_text_empty_iff cell :
  (cell_text cell = EmptyString <-> forallb blank (paragraphs cell) = true)
  /\ (paragraphs cell = [] -> cell_text cell = EmptyString).
Proof.
  split; [apply cell_text_blank|].
  intros H. apply cell_text_blank. rewrite H. reflexivity.
Qed.

Lemma cell_text_empty_iff_witness :
  cell_text {| paragraphs := [" "; EmptyString]; part_rels := [];
               hyperlink_rids := []; instr_texts := [] |} = EmptyString.
Proof.
  apply (proj2 (proj1 (cell_text_empty_iff
                         {| paragraphs := [" "; EmptyString]; part_rels := [];
                            hyperlink_rids := []; instr_texts := [] |}))).
  reflexivity.
Defined.

(** X3. The header test counts the cells of the first row that have a
    non-blank paragraph: the second strip of the count changes nothing. *)
Theorem nonempty_count_cells (cs : list Cell) :
  nonempty_count (map cell_text cs)
  = length (List.filter (fun c => negb (forallb blank (paragraphs c))) cs).
Proof.
  unfold nonempty_count. induction cs as [|c cs IH]; [reflexivity|].
  simpl. rewrite cell_text_strip_fixed.
  destruct (forallb blank (paragraphs c)) eqn:E.
  - apply cell_text_blank in E. rewrite E. simpl. exact IH.
  - destruct (cell_text c) as [|ch r] eqn:Et.
    + apply cell_text_blank in Et. congruence.
    + simpl. rewrite IH. reflexivity.
Qed.

(** ** Hyperlinks *)

Lemma span_spec p s a b :
  span p s = (a, b) -> all_chars p a = true /\ s = a +:+ b.
Proof.
  revert a b. induction s as [|c s IH]; simpl; intros a b H.
  - simplify_eq. split; reflexivity.
  - destruct (p c) eqn:Ec.
    + destruct (span p s) as [a' b'] eqn:E. simplify_eq.
      destruct (IH _ _ eq_refl) as [Ha Hs]. simpl. rewrite Ec, Ha.
      split; [reflexivity|]. rewrite Hs at 1. reflexivity.
    + simplify_eq. split; reflexivity.
Qed.

Lemma span_append p a c rest :
  all_chars p a = true -> p c = false ->
  span p (a +:+ String c rest) = (a, String c rest).
Proof.
  intros Ha Hc. induction a as [|x a IH]; simpl in *.
  - rewrite Hc. reflexivity.
  - apply andb_prop in Ha as [Hx Ha]. rewrite Hx, (IH Ha). reflexivity.
Qed.

Lemma re_match_here_group t g :
  re_match_here t = Some g -> truthy g = true /\ quote_free g = true.
Proof.
  unfold re_match_here.
  destruct (String.prefix "HYPERLINK" t); [|discriminate].
  destruct (span py_isspace (drop 9 t)) as [ws r1].
  destruct (truthy ws); [|discriminate].
  destruct r1 as [|q r2]; [discriminate|].
  destruct (Ascii.eqb q dquote); [|discriminate].
  destruct (span (fun c => negb (Ascii.eqb c dquote)) r2) as [g' r3] eqn:E.
  destruct (truthy g') eqn:Et; [|discriminate].
  destruct r3; [discriminate|]. intros H. simplify_eq.
  split; [exact Et|]. exact (proj1 (span_spec _ _ _ _ E)).
Qed.

Lemma re_search_hyperlink_group t g :
  re_search_hyperlink t = Some g -> truthy g = true /\ quote_free g = true.
Proof.
  induction t as [|c t IH]; simpl.
  - discriminate.
  - destruct (re_match_here (String c t)) eqn:E.
    + intros H. simplify_eq. exact (re_match_here_group _ _ E).
    + exact IH.
Qed.

Lemma prefix_hyperlink x : String.prefix "HYPERLINK" ("HYPERLINK" +:+ x) = true.
Proof. destruct x; reflexivity. Qed.

Lemma re_match_here_field_code ws u rest :
  blank ws = true -> truthy ws = true ->
  quote_free u = true -> truthy u = true ->
  re_match_here (field_code ws u rest) = Some u.
Proof.
  intros Hws Hne Hu Hun. unfold re_match_here, field_code.
  rewrite prefix_hyperlink.
  change (drop 9 ("HYPERLINK" +:+ ws +:+ String dquote (u +:+ String dquote rest)))
    with (ws +:+ String dquote (u +:+ String dquote rest)).
  rewrite (span_append py_isspace ws dquote _ Hws eq_refl), Hne.
  change (Ascii.eqb dquote dquote) with true. cbv iota.
  rewrite (span_append _ u dquote rest Hu eq_refl), Hun. reflexivity.
Qed.

Lemma re_search_hyperlink_unfold t :
  re_search_hyperlink t
  = match re_match_here t with
    | Some g => Some g
    | None => match t with
              | EmptyString => None
              | String _ t' => re_search_hyperlink t'
              end
    end.
Proof. destruct t; reflexivity. Qed.

Lemma re_match_here_space c t :
  py_isspace c = true -> re_match_here (String c t) = None.
Proof.
  intros Hc. unfold re_match_here.
  assert (Hp : String.prefix "HYPERLINK" (String c t) = false).
  { change (String.prefix "HYPERLINK" (String c t))
      with (match ascii_dec "H" c with
            | left _ => String.prefix "YPERLINK" t
            | right _ => false
            end).
    destruct (ascii_dec "H" c) as [<-|_]; [discriminate|reflexivity]. }
  rewrite Hp. reflexivity.
Qed.

(** X4. A field code read back: in an instruction text made of leading white
    space, the word HYPERLINK, white space and a quoted URL, the pattern
    search finds the URL, whatever follows the closing quote, as long as the
    URL is not empty and has no double quote in it. *)
Theorem re_search_hyperlink_field_code pre ws u rest :
  blank pre = true ->
  blank ws = true -> truthy ws = true ->
  quote_free u = true -> truthy u = true ->
  re_search_hyperlink (pre +:+ field_code ws u rest) = Some u.
Proof.
  intros Hpre Hws Hne Hu Hun. induction pre as [|c pre IH].
  - change (EmptyString +:+ field_code ws u rest) with (field_code ws u rest).
    rewrite re_search_hyperlink_unfold, re_match_here_field_code by assumption.
    reflexivity.
  - unfold blank in Hpre. simpl in Hpre. apply andb_prop in Hpre as [Hc Hpre].
    change (String c pre +:+ field_code ws u rest)
      with (String c (pre +:+ field_code ws u rest)).
    rewrite re_search_hyperlink_unfold, (re_match_here_space _ _ Hc).
    exact (IH Hpre).
Qed.

Lemma re_search_hyperlink_field_code_witness :
  re_search_hyperlink (" " +:+ field_code " " "http://x/y.png" " \o")
  = Some "http://x/y.png".
Proof.
  exact (re_search_hyperlink_field_code " " " " "http://x/y.png" " \o"
           eq_refl eq_refl eq_refl eq_refl eq_refl).
Defined.

(** X5. The hyperlink lookup never finds anything: for every cell, whatever
    hyperlink elements, relationships and field codes it holds, the XPath
    call made with a keyword argument raises, the exception is swallowed,
    and the result is nothing.  So a photo cell whose part yields no image
    always resolves to no link, without any call, in every world. *)
Theorem first_hyperlink_url_always_none cell :
  first_hyperlink_url cell = None
  /\ forall (W : Type) (env : Env W) folder_id r_i s,
       first_embedded_image_bytes cell = None ->
       resolve_photo env folder_id r_i cell s = (inr None, s).
Proof.
  split; [reflexivity|].
  intros W env folder_id r_i s H. apply resolve_photo_no_image. exact H.
Qed.

(** A cell with an external structural hyperlink and a well-formed field
    code: the loops as written would find the URL, the lookup returns
    nothing. *)
Lemma first_hyperlink_url_always_none_witness :
  direct_hyperlink (part_rels hyperlink_and_field_cell)
    (hyperlink_rids hyperlink_and_field_cell) = Some example_url
  /\ field_hyperlink (instr_texts hyperlink_and_field_cell) = Some example_url
  /\ first_hyperlink_url hyperlink_and_field_cell = None
  /\ resolve_photo sim_env "fld" 1 hyperlink_and_field_cell (sim_reachable, [])
     = (inr None, (sim_reachable, [])).
Proof.
  split; [reflexivity|]. split; [reflexivity|].
  split; [exact (proj1 (first_hyperlink_url_always_none hyperlink_and_field_cell))|].
  exact (proj2 (first_hyperlink_url_always_none hyperlink_and_field_cell)
           Sim sim_env "fld" 1 (sim_reachable, []) eq_refl).
Defined.

(** ** Embedded images *)

Lemma first_image_in_found rels data mime :
  first_image_in rels = Some (data, mime) <->
  exists pre k t p post,
    rels = pre ++ (k, InternalRel t p) :: post
    /\ forallb (fun kr => passed_over (snd kr)) pre = true
    /\ content_type p = Some mime
    /\ String.prefix "image/" mime = true
    /\ blob p = data.
Proof.
  induction rels as [|[k0 rel] rels IH]; simpl.
  - split; [discriminate|]. intros (pre & k & t & p & post & H & _).
    destruct pre; discriminate.
  - assert (Hskip : passed_over rel = true ->
              (first_image_in rels = Some (data, mime) <->
               exists pre k t p post,
                 (k0, rel) :: rels = pre ++ (k, InternalRel t p) :: post
                 /\ forallb (fun kr => passed_over (snd kr)) pre = true
                 /\ content_type p = Some mime
                 /\ String.prefix "image/" mime = true
                 /\ blob p = data)).
    { intros Hrel. rewrite IH. split.
      - intros (pre & k & t & p & post & -> & Hp & H).
        exists ((k0, rel) :: pre), k, t, p, post. simpl. rewrite Hrel, Hp. auto.
      - intros (pre & k & t & p & post & Heq & Hp & Hc & Hi & Hb).
        destruct pre as [|x pre]; simpl in *; simplify_eq.
        + simpl in Hrel. rewrite Hc, Hi in Hrel. discriminate.
        + apply andb_prop in Hp as [_ Hp]. exists pre, k, t, p, post. auto. }
    destruct rel as [t0|t0 p0]; simpl.
    + split; [discriminate|].
      intros (pre & k & t & p & post & Heq & Hp & _).
      destruct pre as [|x pre]; simpl in *; simplify_eq.
    + destruct (content_type p0) as [ct|] eqn:Ec.
      * destruct (String.prefix "image/" ct) eqn:Ei.
        -- split.
           ++ intros H. simplify_eq. exists [], k0, t0, p0, rels. auto.
           ++ intros (pre & k & t & p & post & Heq & Hp & Hc & Hi & Hb).
              destruct pre as [|x pre]; simpl in *; simplify_eq.
              ** congruence.
              ** unfold passed_over in Hp. simpl in Hp.
                 rewrite Ec, Ei in Hp. discriminate.
        -- apply Hskip. simpl. rewrite Ec, Ei. reflexivity.
      * apply Hskip. simpl. rewrite Ec. reflexivity.
Qed.

Lemma first_image_in_external pre k t post :
  forallb (fun kr => passed_over (snd kr)) pre = true ->
  first_image_in (pre ++ (k, ExternalRel t) :: post) = None.
Proof.
  induction pre as [|[k0 rel] pre IH]; simpl; [reflexivity|].
  intros H. apply andb_prop in H as [Hrel Hp].
  destruct rel as [t0|t0 p0]; simpl in *; [discriminate|].
  destruct (content_type p0) as [ct|]; [|exact (IH Hp)].
  destruct (String.prefix "image/" ct); [discriminate|exact (IH Hp)].
Qed.

(** X7. What the image extractor returns.  It returns the bytes and content
    type of the first internal relationship of the cell's part whose part
    has an image content type, every relationship before it being internal
    and not an image; the content type returned starts with image/.  The
    cell's own content plays no part. *)
Theorem first_embedded_image_bytes_found cell data mime :
  first_embedded_image_bytes cell = Some (data, mime) <->
  exists pre k t p post,
    part_rels cell = pre ++ (k, InternalRel t p) :: post
    /\ forallb (fun kr => passed_over (snd kr)) pre = true
    /\ content_type p = Some mime
    /\ String.prefix "image/" mime = true
    /\ blob p = data.
Proof. apply first_image_in_found. Qed.

(** X8. An external relationship (a hyperlink, for one) that comes before
    every image of the part makes the extractor return nothing, whatever
    images follow it: reading its target part raises and the exception is
    swallowed. *)
Theorem first_embedded_image_bytes_external cell pre k t post :
  part_rels cell = pre ++ (k, ExternalRel t) :: post ->
  forallb (fun kr => passed_over (snd kr)) pre = true ->
  first_embedded_image_bytes cell = None.
Proof.
  intros H Hp. unfold first_embedded_image_bytes. rewrite H.
  exact (first_image_in_external _ _ _ _ Hp).
Qed.

Lemma first_embedded_image_bytes_found_witness :
  first_embedded_image_bytes image_and_link_cell
  = Some (blob jpeg_part, "image/jpeg").
Proof.
  apply (proj2 (first_embedded_image_bytes_found image_and_link_cell
                  (blob jpeg_part) "image/jpeg")).
  exists [], "rId1", "media/image1.jpeg", jpeg_part,
    [("rId2", ExternalRel example_url)].
  repeat split; reflexivity.
Defined.

Lemma first_embedded_image_bytes_external_witness :
  first_embedded_image_bytes link_before_image_cell = None.
Proof.
  exact (first_embedded_image_bytes_external link_before_image_cell []
           "rId1" example_url
           [("rId2", InternalRel "media/image1.jpeg" jpeg_part)]
           eq_refl eq_refl).
Defined.

(** ** The table choice *)

Lemma find_wide_none doc :
  List.find (fun t => 3 <=? columns t) doc = None <-> forallb narrow doc = true.
Proof.
  unfold narrow. induction doc as [|t doc IH]; cbn [List.find forallb]; [tauto|].
  destruct (3 <=? columns t) eqn:E.
  - split; [discriminate|]. intros H. apply andb_prop in H as [H _].
    apply Nat.leb_le in E. apply Nat.ltb_lt in H. lia.
  - rewrite IH. apply Nat.leb_gt in E.
    assert (H : (columns t <? 3) = true) by (apply Nat.ltb_lt; lia).
    rewrite H. cbn [andb]. tauto.
Qed.

Lemma find_wide_first pre t post :
  forallb narrow pre = true -> 3 <= columns t ->
  List.find (fun t => 3 <=? columns t) (pre ++ t :: post) = Some t.
Proof.
  unfold narrow. induction pre as [|t0 pre IH]; cbn [List.find forallb app]; intros Hp Ht.
  - assert (H : (3 <=? columns t) = true) by (apply Nat.leb_le; exact Ht).
    rewrite H. reflexivity.
  - apply andb_prop in Hp as [H0 Hp]. apply Nat.ltb_lt in H0.
    assert (H : (3 <=? columns t0) = false) by (apply Nat.leb_gt; lia).
    rewrite H. exact (IH Hp Ht).
Qed.

(** X9. The table choice.  No table is chosen exactly when the document has
    none (the conversion then raises).  A table of at least three columns is
    chosen when every table before it has fewer than three, wherever it is
    in the document; when every table has fewer than three columns the
    first table is chosen. *)
Theorem choose_table_spec doc :
  (choose_table doc = None <-> doc = [])
  /\ (forall pre t post,
        doc = pre ++ t :: post -> forallb narrow pre = true ->
        3 <= columns t -> choose_table doc = Some t)
  /\ (forallb narrow doc = true -> choose_table doc = head doc).
Proof.
  unfold choose_table. split; [|split].
  - destruct (List.find _ doc) as [t|] eqn:E.
    + split; [intros H; discriminate H|]. intros ->. simpl in E. discriminate E.
    + destruct doc; simpl; split; congruence.
  - intros pre t post -> Hp Ht. rewrite (find_wide_first _ _ _ Hp Ht).
    reflexivity.
  - intros H. apply find_wide_none in H. rewrite H. reflexivity.
Qed.

Lemma choose_table_spec_witness :
  choose_table [ {| rows := []; columns := 2 |}; {| rows := []; columns := 5 |};
                 {| rows := []; columns := 7 |} ]
  = Some {| rows := []; columns := 5 |}.
Proof.
  refine (proj1 (proj2 (choose_table_spec _)) [ {| rows := []; columns := 2 |} ]
            {| rows := []; columns := 5 |} [ {| rows := []; columns := 7 |} ]
            eq_refl eq_refl _).
  simpl. lia.
Defined.

(** ** The photo column *)

Lemma find_photo_idx_found lowered hs :
  forall i n,
    find_photo_idx lowered i hs = Some n <->
    exists k h,
      n = i + k /\ hs !! k = Some h /\ photo_header lowered h = true
      /\ forall j h', j < k -> hs !! j = Some h' -> photo_header lowered h' = false.
Proof.
  induction hs as [|h0 hs IH]; intros i n; simpl.
  - split; [discriminate|]. intros (k & h & _ & H & _). discriminate.
  - fold (photo_header lowered h0).
    destruct (photo_header lowered h0) eqn:E.
    + split.
      * intros H. injection H as <-. exists 0, h0. rewrite Nat.add_0_r.
        repeat split; auto. intros j h' Hj. lia.
      * intros (k & h & -> & Hk & Hh & Hfirst).
        destruct k as [|k]; [rewrite Nat.add_0_r; reflexivity|].
        specialize (Hfirst 0 h0 ltac:(lia) eq_refl). congruence.
    + rewrite IH. split.
      * intros (k & h & -> & Hk & Hh & Hfirst).
        exists (S k), h. split; [lia|]. split; [exact Hk|]. split; [exact Hh|].
        intros [|j] h' Hj Hl; simpl in Hl; [congruence|].
        apply (Hfirst j h'); [lia|exact Hl].
      * intros (k & h & -> & Hk & Hh & Hfirst).
        destruct k as [|k]; simpl in Hk; [congruence|].
        exists k, h. split; [lia|]. split; [exact Hk|]. split; [exact Hh|].
        intros j h' Hj Hl. apply (Hfirst (S j) h'); [lia|exact Hl].
Qed.

(** X10. The photo column is the first column whose header, stripped and
    lower-cased, is one of the lower-cased candidates: the index found is
    within the header list, its header matches and no header before it
    does; and there is no photo column exactly when no header matches. *)
Theorem find_photo_idx_first lowered hs :
  (forall n,
     find_photo_idx lowered 0 hs = Some n <->
     exists h, hs !! n = Some h /\ photo_header lowered h = true
               /\ forall j h', j < n -> hs !! j = Some h' ->
                               photo_header lowered h' = false)
  /\ (find_photo_idx lowered 0 hs = None <->
      forallb (fun h => negb (photo_header lowered h)) hs = true).
Proof.
  split.
  - intros n. rewrite find_photo_idx_found. split.
    + intros (k & h & -> & H). exists h. exact H.
    + intros (h & H). exists n, h. split; [reflexivity|exact H].
  - generalize 0.
    induction hs as [|h0 hs IH]; intros i; simpl; [tauto|].
    fold (photo_header lowered h0).
    destruct (photo_header lowered h0); simpl.
    + split; discriminate.
    + apply IH.
Qed.

Lemma find_photo_idx_first_witness :
  find_photo_idx (set_map lower PHOTO_HEADER_CANDIDATES) 0
    ["Name"; " PHOTO "; "Image"] = Some 1.
Proof.
  apply (proj1 (find_photo_idx_first (set_map lower PHOTO_HEADER_CANDIDATES)
                  ["Name"; " PHOTO "; "Image"]) 1).
  exists " PHOTO ". split; [reflexivity|]. split; [vm_compute; reflexivity|].
  intros [|j] h' Hj Hl; simpl in Hl; [|lia].
  injection Hl as <-. vm_compute. reflexivity.
Defined.

Lemma py_isspace_lower c : py_isspace (py_lower_char c) = py_isspace c.
Proof. destruct c as [[] [] [] [] [] [] [] []]; reflexivity. Qed.

Lemma lower_lstrip s : lower (lstrip s) = lstrip (lower s).
Proof.
  induction s as [|c s IH]; simpl; [reflexivity|].
  rewrite py_isspace_lower. destruct (py_isspace c); [exact IH|reflexivity].
Qed.

Lemma lower_rstrip s : lower (rstrip s) = rstrip (lower s).
Proof.
  induction s as [|c s IH]; simpl; [reflexivity|].
  rewrite <- IH, py_isspace_lower.
  destruct (rstrip s) as [|c' r]; simpl; [|reflexivity].
  destruct (py_isspace c); reflexivity.
Qed.

Lemma lower_strip s : lower (strip s) = strip (lower s).
Proof. unfold strip. rewrite lower_lstrip, lower_rstrip. reflexivity. Qed.

Lemma photo_header_lower lowered h h' :
  lower h = lower h' -> photo_header lowered h = photo_header lowered h'.
Proof.
  intros H. unfold photo_header. rewrite !lower_strip, H. reflexivity.
Qed.

(** X11. The photo column does not depend on the case of the headers: two
    header lists that agree after lower-casing have the same photo index. *)
Theorem find_photo_idx_case_insensitive lowered hs hs' i :
  map lower hs = map lower hs' ->
  find_photo_idx lowered i hs = find_photo_idx lowered i hs'.
Proof.
  revert hs' i. induction hs as [|h hs IH]; intros [|h' hs'] i H;
    simpl in H; try discriminate; [reflexivity|].
  injection H as Hh Hrest. simpl.
  fold (photo_header lowered h). fold (photo_header lowered h').
  rewrite (photo_header_lower lowered h h' Hh), (IH hs' (S i) Hrest).
  reflexivity.
Qed.

Lemma find_photo_idx_case_insensitive_witness :
  find_photo_idx (set_map lower PHOTO_HEADER_CANDIDATES) 0 ["Name"; "PHOTO"]
  = find_photo_idx (set_map lower PHOTO_HEADER_CANDIDATES) 0 ["NAME"; "photo"].
Proof.
  exact (find_photo_idx_case_insensitive (set_map lower PHOTO_HEADER_CANDIDATES)
           ["Name"; "PHOTO"] ["NAME"; "photo"] 0 eq_refl).
Defined.

(** ** More on packing a row *)

Lemma pack_from_ext i hs (v1 v2 : list string) (d : gmap string string) :
  (forall j, j < length hs ->
     default EmptyString (v1 !! (i + j)) = default EmptyString (v2 !! (i + j))) ->
  pack_from i hs v1 d = pack_from i hs v2 d.
Proof.
  revert i d. induction hs as [|h hs IH]; intros i d H; simpl; [reflexivity|].
  pose proof (H 0 ltac:(simpl; lia)) as H0. rewrite Nat.add_0_r in H0.
  rewrite H0. apply IH. intros j Hj.
  specialize (H (S j) ltac:(simpl; lia)).
  replace (i + S j) with (S i + j) in H by lia. exact H.
Qed.

(** X12. Rows and headers of different lengths.  A data row with more cells
    than there are headers loses the cells beyond the last header; a data
    row with fewer cells is packed as if it were filled up with empty
    strings. *)
Theorem pack_row_pads_and_truncates hs (values extra : list string) k :
  (length hs <= length values ->
   pack_row hs (values ++ extra) = pack_row hs values)
  /\ pack_row hs (values ++ replicate k EmptyString) = pack_row hs values.
Proof.
  unfold pack_row. split.
  - intros Hlen. apply pack_from_ext. intros j Hj. simpl.
    rewrite lookup_app_l by lia. reflexivity.
  - apply pack_from_ext. intros j Hj. simpl.
    destruct (decide (j < length values)) as [Hlt|Hge].
    + rewrite lookup_app_l by lia. reflexivity.
    + rewrite lookup_app_r by lia.
      rewrite (lookup_ge_None_2 values j) by lia. simpl.
      destruct (replicate k EmptyString !! (j - length values)) as [x|] eqn:E;
        [|reflexivity].
      apply lookup_replicate in E as [-> _]. reflexivity.
Qed.

Lemma pack_row_pads_and_truncates_witness :
  pack_row ["Name"; "Age"] (["Al"; "3"] ++ ["dropped"])
  = pack_row ["Name"; "Age"] ["Al"; "3"].
Proof.
  refine (proj1 (pack_row_pads_and_truncates ["Name"; "Age"] ["Al"; "3"]
                   ["dropped"] 0) _).
  simpl. lia.
Defined.

Lemma pack_from_lookup_Some i hs (values : list string)
    (d : gmap string string) k v :
  pack_from i hs values d !! k = Some v ->
  (exists n h, hs !! n = Some h /\ row_key (i + n) h = k
               /\ v = default EmptyString (values !! (i + n)))
  \/ d !! k = Some v.
Proof.
  revert i d. induction hs as [|h hs IH]; intros i d H; simpl in H;
    [right; exact H|].
  destruct (IH _ _ H) as [(n & h' & Hn & Hk & Hv)|Hd].
  - left. exists (S n), h'. replace (i + S n) with (S i + n) by lia. auto.
  - destruct (decide (row_key i h = k)) as [Heq|Hne].
    + left. exists 0, h. rewrite Nat.add_0_r. subst k.
      rewrite lookup_insert_eq in Hd. split; [reflexivity|]. split; congruence.
    + right. rewrite lookup_insert_ne in Hd by exact Hne. exact Hd.
Qed.

Lemma pack_from_keeps i hs (values : list string) (d : gmap string string) k :
  is_Some (d !! k) -> is_Some (pack_from i hs values d !! k).
Proof.
  revert i d. induction hs as [|h hs IH]; intros i d H; simpl; [exact H|].
  apply IH. destruct (decide (row_key i h = k)) as [<-|Hne].
  - rewrite lookup_insert_eq. eauto.
  - rewrite lookup_insert_ne by exact Hne. exact H.
Qed.

Lemma pack_from_has_key i hs (values : list string) (d : gmap string string) n h :
  hs !! n = Some h -> is_Some (pack_from i hs values d !! row_key (i + n) h).
Proof.
  revert i d n. induction hs as [|h0 hs IH]; intros i d n Hn; [discriminate|].
  destruct n as [|n]; simpl in *.
  - simplify_eq. rewrite Nat.add_0_r. apply pack_from_keeps.
    rewrite lookup_insert_eq. eauto.
  - replace (i + S n) with (S i + n) by lia. apply IH. exact Hn.
Qed.

(** X13. What a packed row holds.  Its keys are exactly the keys of the
    columns (the header, or Column i+1 for an empty header), and every value
    in it is the value of a column with that key, the empty string when the
    data row has no such cell.  Nothing else gets into an output row. *)
Theorem pack_row_keys hs (values : list string) k :
  (is_Some (pack_row hs values !! k) <->
   exists n h, hs !! n = Some h /\ row_key n h = k)
  /\ (forall v, pack_row hs values !! k = Some v ->
        exists n h, hs !! n = Some h /\ row_key n h = k
                    /\ v = default EmptyString (values !! n)).
Proof.
  assert (Hval : forall v, pack_row hs values !! k = Some v ->
            exists n h, hs !! n = Some h /\ row_key n h = k
                        /\ v = default EmptyString (values !! n)).
  { intros v H. destruct (pack_from_lookup_Some 0 hs values ∅ k v H)
      as [(n & h & Hn & Hk & Hv)|Hd].
    - exists n, h. auto.
    - rewrite lookup_empty in Hd. discriminate. }
  split; [|exact Hval]. split.
  - intros [v H]. destruct (Hval v H) as (n & h & Hn & Hk & _). eauto.
  - intros (n & h & Hn & <-). exact (pack_from_has_key 0 hs values ∅ n h Hn).
Qed.

Lemma pack_row_keys_witness :
  exists n h, ["Name"; EmptyString] !! n = Some h /\ row_key n h = "Column 2"
              /\ "3" = default EmptyString (["Al"; "3"] !! n).
Proof.
  apply (proj2 (pack_row_keys ["Name"; EmptyString] ["Al"; "3"] "Column 2") "3").
  vm_compute. reflexivity.
Defined.

(** X14. With header names that are non-empty and pairwise distinct, the
    packed row holds under every header the value of its column: no column
    is lost. *)
Theorem pack_row_distinct_headers hs (values : list string) i h :
  NoDup hs ->
  forallb truthy hs = true ->
  hs !! i = Some h ->
  pack_row hs values !! h = Some (default EmptyString (values !! i)).
Proof.
  intros Hnd Hne Hi.
  assert (Hkey : forall j h', hs !! j = Some h' -> row_key j h' = h').
  { intros j h' Hj. unfold row_key.
    assert (Ht : truthy h' = true).
    { rewrite forallb_forall in Hne. apply Hne.
      apply list_elem_of_In, list_elem_of_lookup. eauto. }
    rewrite Ht. reflexivity. }
  rewrite <- (Hkey i h Hi) at 1. apply pack_row_hit; [exact Hi|].
  intros j h' Hlt Hj. rewrite (Hkey j h' Hj), (Hkey i h Hi). intros ->.
  pose proof (NoDup_lookup hs i j h Hnd Hi Hj). lia.
Qed.

Lemma pack_row_distinct_headers_witness :
  pack_row ["Name"; "Age"; "Photo"] ["Al"; "3"] !! "Photo" = Some EmptyString.
Proof.
  refine (pack_row_distinct_headers ["Name"; "Age"; "Photo"] ["Al"; "3"] 2
            "Photo" _ eq_refl eq_refl).
  apply (bool_decide_unpack (NoDup ["Name"; "Age"; "Photo"])).
  vm_compute. exact I.
Defined.

(** X15. When the first row is not taken as the header, no column is lost:
    the packed row holds the value of every column i under Column i+1. *)
Theorem synthetic_headers_keep_all n (values : list string) i :
  i < n ->
  pack_row (synthetic_headers n) values !! ("Column " +:+ pretty (i + 1))
  = Some (default EmptyString (values !! i)).
Proof.
  intros Hi.
  assert (Hl : forall j h, synthetic_headers n !! j = Some h -> h = column_name j).
  { intros j h Hj. assert (j < n).
    { apply lookup_lt_Some in Hj. unfold synthetic_headers in Hj.
      rewrite length_map, length_seq in Hj. exact Hj. }
    rewrite synthetic_headers_lookup in Hj by assumption.
    injection Hj as <-. reflexivity. }
  change ("Column " +:+ pretty (i + 1)) with (row_key i (column_name i)).
  apply pack_row_hit; [apply synthetic_headers_lookup; exact Hi|].
  intros j h' Hlt Hj. rewrite (Hl j h' Hj).
  change (row_key j (column_name j)) with (column_name j).
  change (row_key i (column_name i)) with (column_name i).
  intros Heq. apply column_name_inj in Heq. lia.
Qed.

Lemma synthetic_headers_keep_all_witness :
  pack_row (synthetic_headers 3) ["a"; "b"; "c"] !! "Column 2" = Some "b".
Proof.
  refine (synthetic_headers_keep_all 3 ["a"; "b"; "c"] 1 _). lia.
Defined.

(** ** Failures of an upload *)

Section UploadFailures.
Context {W : Type} (env : Env W).

(** X16. The two ways an upload fails.  When the creation call raises, the
    exception propagates and no permission call is made.  When the object
    is created but the permission grant raises, the upload raises too: the
    caller gets no URL although the object now exists in the store. *)
Theorem upload_image_bytes_failures folder_id name_hint data mime w log :
  let body := {| body_name := name_hint; body_mimeType := None;
                 body_parents := [folder_id] |} in
  let media := Some (data, mime_or_default mime) in
  (forall e w1,
     files_create env body media w = (inl e, w1) ->
     upload_image_bytes env folder_id name_hint data mime (w, log)
     = (inl e, (w1, log ++ [FilesCreate body media])))
  /\ (forall file_id w1 e s2,
        files_create env body media w = (inr file_id, w1) ->
        set_public_anyone_reader env file_id
          (w1, log ++ [FilesCreate body media]) = (inl e, s2) ->
        upload_image_bytes env folder_id name_hint data mime (w, log)
        = (inl e, s2))
  /\ truthy (mime_or_default mime) = true.
Proof.
  intros body media. split; [|split].
  - intros e w1 H. rewrite upload_image_bytes_unfold. fold body media.
    rewrite H. reflexivity.
  - intros file_id w1 e s2 Hc Hp. rewrite upload_image_bytes_unfold.
    fold body media. rewrite Hc, Hp. reflexivity.
  - destruct mime as [m|]; [|reflexivity]. simpl.
    destruct (truthy m) eqn:E; [exact E|reflexivity].
Qed.

End UploadFailures.

(** A grant refused with 404 is not retried: the upload raises, and the
    object it created stays in the store. *)
Lemma upload_image_bytes_failures_witness :
  upload_image_bytes sim_env "fld" "row1_photo" [x01] None (sim_perm_not_found, [])
  = (inl (HttpError 404),
     ({| sim_objects := [("id0", {| body_name := "row1_photo";
                                    body_mimeType := None;
                                    body_parents := ["fld"] |})];
         sim_perm_faults := []; sim_list_down := false; sim_web := [] |},
      [FilesCreate {| body_name := "row1_photo"; body_mimeType := None;
                      body_parents := ["fld"] |}
         (Some ([x01], "application/octet-stream"));
       PermissionsCreate "id0"])).
Proof.
  exact (proj1 (proj2 (upload_image_bytes_failures sim_env "fld" "row1_photo"
                         [x01] None sim_perm_not_found []))
           "id0" _ (HttpError 404) _ eq_refl eq_refl).
Defined.

(** ** Failures and shape of a conversion *)

Section ConversionRuns.
Context {W : Type} (env : Env W).

(** X17. A document without tables, or whose chosen table has no rows, makes
    the conversion raise before any call to the outside: the world and the
    log are unchanged, and no folder is looked up or created. *)
Theorem convert_rejects_empty doc folder_name candidates s :
  (doc = [] ->
   convert_docx_to_excel_with_drive env doc folder_name candidates s
   = (inl (OtherError "ValueError: No tables found in the DOCX."), s))
  /\ (forall table,
        choose_table doc = Some table -> rows table = [] ->
        convert_docx_to_excel_with_drive env doc folder_name candidates s
        = (inl (OtherError "IndexError"), s)).
Proof.
  unfold convert_docx_to_excel_with_drive. split.
  - intros ->. reflexivity.
  - intros table Hc Hr. rewrite Hc, Hr. reflexivity.
Qed.

(** X18. When the folder cannot be resolved (the listing gives nothing and
    the creation raises), the conversion raises that exception and no row
    is processed: the state is the one the folder resolution left. *)
Theorem convert_folder_failure doc folder_name candidates s table e s1 :
  choose_table doc = Some table ->
  rows table <> [] ->
  find_or_create_folder env folder_name s = (inl e, s1) ->
  convert_docx_to_excel_with_drive env doc folder_name candidates s
  = (inl e, s1).
Proof.
  intros Hc Hr Hf. unfold convert_docx_to_excel_with_drive. rewrite Hc.
  destruct (rows table) as [|first_row rest]; [congruence|].
  destruct (build_headers first_row (first_row :: rest)) as [hs data_rows].
  unfold_m. rewrite Hf. reflexivity.
Qed.

Lemma process_rows_app folder_id headers photo_idx pre :
  forall r_i rest s outs sk,
    process_rows env folder_id headers photo_idx r_i pre s = (inr outs, sk) ->
    process_rows env folder_id headers photo_idx r_i (pre ++ rest) s
    = match process_rows env folder_id headers photo_idx (r_i + length pre)
              rest sk with
      | (inr outs', s') => (inr (outs ++ outs'), s')
      | (inl e, s') => (inl e, s')
      end.
Proof.
  induction pre as [|row pre IH]; intros r_i rest s outs sk H.
  - simpl in H. unfold_m. simplify_eq. rewrite Nat.add_0_r. simpl.
    destruct (process_rows env folder_id headers photo_idx r_i rest sk)
      as [[e|outs'] s']; reflexivity.
  - simpl in H. simpl. unfold_m.
    destruct (process_row env folder_id headers photo_idx r_i row s)
      as [[e|d] s1]; [discriminate|].
    destruct (process_rows env folder_id headers photo_idx (S r_i) pre s1)
      as [[e|ds] s2] eqn:E; [discriminate|].
    simplify_eq. rewrite (IH _ rest _ _ _ E).
    replace (S r_i + length pre) with (r_i + S (length pre)) by lia.
    destruct (process_rows env folder_id headers photo_idx _ rest sk)
      as [[e|outs'] s']; reflexivity.
Qed.

(** X19. A row that raises ends the loop: when the rows before it have been
    processed and it raises, the loop raises the same exception in the state
    that row left, whatever rows follow; they are not processed and no
    output row is returned. *)
Theorem process_rows_stops_at_failure folder_id headers photo_idx r_i
    pre row post s outs sk e s' :
  process_rows env folder_id headers photo_idx r_i pre s = (inr outs, sk) ->
  process_row env folder_id headers photo_idx (r_i + length pre) row sk
  = (inl e, s') ->
  process_rows env folder_id headers photo_idx r_i (pre ++ row :: post) s
  = (inl e, s').
Proof.
  intros Hpre Hrow. rewrite (process_rows_app _ _ _ _ _ _ _ _ _ Hpre).
  simpl. unfold_m. rewrite Hrow. reflexivity.
Qed.

End ConversionRuns.

Lemma convert_rejects_empty_witness :
  convert_docx_to_excel_with_drive sim_env [] "DOCX Image Uploads"
    PHOTO_HEADER_CANDIDATES (sim_empty, [])
  = (inl (OtherError "ValueError: No tables found in the DOCX."), (sim_empty, []))
  /\ convert_docx_to_excel_with_drive sim_env empty_table_doc "DOCX Image Uploads"
       PHOTO_HEADER_CANDIDATES (sim_empty, [])
     = (inl (OtherError "IndexError"), (sim_empty, [])).
Proof.
  split.
  - exact (proj1 (convert_rejects_empty sim_env [] "DOCX Image Uploads"
                    PHOTO_HEADER_CANDIDATES (sim_empty, [])) eq_refl).
  - exact (proj2 (convert_rejects_empty sim_env empty_table_doc
                    "DOCX Image Uploads" PHOTO_HEADER_CANDIDATES (sim_empty, []))
             {| rows := []; columns := 4 |} eq_refl eq_refl).
Defined.

Lemma convert_folder_failure_witness :
  convert_docx_to_excel_with_drive offline_env photo_doc "DOCX Image Uploads"
    PHOTO_HEADER_CANDIDATES (tt, [])
  = (inl offline,
     (tt, [FilesList (folder_query "DOCX Image Uploads");
           FilesCreate (folder_body "DOCX Image Uploads") None])).
Proof.
  refine (convert_folder_failure offline_env photo_doc "DOCX Image Uploads"
            PHOTO_HEADER_CANDIDATES (tt, [])
            {| rows := [row_of ["Name"; "Age"; "Photo"; "Notes"]; photo_row];
               columns := 4 |}
            offline _ eq_refl _ eq_refl).
  discriminate.
Defined.

Lemma process_rows_stops_at_failure_witness :
  process_rows sim_env "fld" ["Name"; "Age"; "Photo"; "Notes"] (Some 2) 1
    ([row_of ["Bo"; "4"; "none"; "m"]] ++ photo_row :: [plain_row])
    (sim_perm_not_found, [])
  = (inl (HttpError 404),
     snd (process_row sim_env "fld" ["Name"; "Age"; "Photo"; "Notes"] (Some 2)
            2 photo_row (sim_perm_not_found, []))).
Proof.
  exact (process_rows_stops_at_failure sim_env "fld"
           ["Name"; "Age"; "Photo"; "Notes"] (Some 2) 1
           [row_of ["Bo"; "4"; "none"; "m"]] photo_row [plain_row]
           (sim_perm_not_found, [])
           [pack_row ["Name"; "Age"; "Photo"; "Notes"] ["Bo"; "4"; "none"; "m"]]
           (sim_perm_not_found, []) (HttpError 404) _ eq_refl eq_refl).
Defined.

(** ** The shape and the calls of a conversion *)

Section ConversionShape.
Context {W : Type} (env : Env W).

(** X20. The shape of a conversion that returns.  The column order has one
    name per cell of the first row of the chosen table.  When that row is
    header-like there is one output row per later row of the table,
    otherwise one per row, the first included.  Output row k is the result
    of processing data row k as row number k+1 with those headers. *)
Theorem convert_output_shape doc folder_name candidates s rows_out headers s' :
  convert_docx_to_excel_with_drive env doc folder_name candidates s
  = (inr (rows_out, headers), s') ->
  exists table first_row folder_id,
    choose_table doc = Some table
    /\ head (rows table) = Some first_row
    /\ length headers = length (cells first_row)
    /\ length rows_out
       = (if header_like (map cell_text (cells first_row))
          then length (rows table) - 1 else length (rows table))
    /\ forall k row,
         snd (build_headers first_row (rows table)) !! k = Some row ->
         exists sk sk' row_dict,
           process_row env folder_id headers
             (find_photo_idx (set_map lower candidates) 0 headers)
             (1 + k) row sk = (inr row_dict, sk')
           /\ rows_out !! k = Some row_dict.
Proof.
  intros H.
  destruct (convert_steps env _ _ _ _ _ _ _ H)
    as (table & first_row & data_rows & folder_id & s1 & Hc & Hh & Hb & Hf & Hp).
  destruct (process_rows_each env _ _ _ _ _ _ _ _ Hp) as [Hlen Heach].
  exists table, first_row, folder_id.
  split; [exact Hc|]. split; [exact Hh|]. rewrite Hb. cbn [snd].
  unfold build_headers in Hb.
  destruct (header_like (map cell_text (cells first_row))) eqn:El;
    injection Hb as <- <-.
  - split; [apply length_map|]. split; [|exact Heach].
    rewrite Hlen. destruct (rows table); simpl; lia.
  - split; [|split; [exact Hlen|exact Heach]].
    unfold synthetic_headers. rewrite length_map, length_seq. reflexivity.
Qed.

Lemma find_or_create_folder_log name w log :
  exists l, snd (snd (find_or_create_folder env name (w, log))) = log ++ l
            /\ count_events is_upload l = 0 /\ count_events is_fetch l = 0.
Proof.
  rewrite find_or_create_folder_unfold.
  destruct (files_list env (folder_query name) w) as [[e|[|f fs]] w1]; simpl;
    eexists; (split; [reflexivity|]); split; reflexivity.
Qed.

Lemma process_row_log folder_id headers photo_idx r_i row w log :
  exists l,
    snd (snd (process_row env folder_id headers photo_idx r_i row (w, log)))
    = log ++ l
    /\ count_events is_upload l <= 1 /\ count_events is_fetch l <= 1.
Proof.
  rewrite process_row_pack.
  destruct (row_values_log env folder_id photo_idx r_i row w log)
    as (l & Hl & Hb).
  exists l. split; [|exact Hb].
  destruct (row_values env folder_id photo_idx r_i row (w, log))
    as [[e|values] s1]; exact Hl.
Qed.

Lemma process_rows_log folder_id headers photo_idx data_rows :
  forall r_i w log,
  exists l,
    snd (snd (process_rows env folder_id headers photo_idx r_i data_rows (w, log)))
    = log ++ l
    /\ count_events is_upload l <= length data_rows
    /\ count_events is_fetch l <= length data_rows.
Proof.
  induction data_rows as [|row rest IH]; intros r_i w log.
  - exists []. simpl. rewrite app_nil_r. unfold count_events. simpl. auto.
  - simpl. unfold_m.
    destruct (process_row_log folder_id headers photo_idx r_i row w log)
      as (l1 & Hl1 & Hu1 & Hf1).
    destruct (process_row env folder_id headers photo_idx r_i row (w, log))
      as [[e|d] [w1 log1]]; simpl in Hl1; subst log1.
    + exists l1. simpl. split; [reflexivity|]. lia.
    + destruct (IH (S r_i) w1 (log ++ l1)) as (l2 & Hl2 & Hu2 & Hf2).
      exists (l1 ++ l2).
      destruct (process_rows env folder_id headers photo_idx (S r_i) rest
                  (w1, log ++ l1)) as [[e|ds] s2];
        simpl in *; rewrite Hl2, <- app_assoc, !count_events_app;
        (split; [reflexivity|]); lia.
Qed.

(** X21. The calls of a conversion.  Whatever the outside answers and
    however the conversion ends, the log only grows, and the conversion
    makes at most one upload and at most one fetch per row of the chosen
    table. *)
Theorem convert_call_bounds doc folder_name candidates w log :
  exists l,
    snd (snd (convert_docx_to_excel_with_drive env doc folder_name candidates
                (w, log))) = log ++ l
    /\ count_events is_upload l <= chosen_rows doc
    /\ count_events is_fetch l <= chosen_rows doc.
Proof.
  unfold convert_docx_to_excel_with_drive, chosen_rows.
  assert (Hnone : forall n, exists l : list Event,
             log = log ++ l /\ count_events is_upload l <= n
             /\ count_events is_fetch l <= n).
  { intros n. exists []. rewrite app_nil_r. unfold count_events. simpl.
    split; [reflexivity|]. lia. }
  destruct (choose_table doc) as [table|]; [|exact (Hnone 0)].
  destruct (rows table) as [|first_row rest] eqn:Er; [exact (Hnone 0)|].
  destruct (build_headers first_row (first_row :: rest)) as [hs data_rows] eqn:Eb.
  assert (Hd : length data_rows <= length (first_row :: rest)).
  { unfold build_headers in Eb.
    destruct (header_like _); injection Eb as <- <-; simpl; lia. }
  unfold_m.
  destruct (find_or_create_folder_log folder_name w log) as (l1 & Hl1 & Hu1 & Hf1).
  destruct (find_or_create_folder env folder_name (w, log))
    as [[e|folder_id] [w1 log1]]; simpl in Hl1; subst log1.
  - exists l1. simpl. split; [reflexivity|]. lia.
  - destruct (process_rows_log folder_id hs
                (find_photo_idx (set_map lower candidates) 0 hs) data_rows
                1 w1 (log ++ l1)) as (l2 & Hl2 & Hu2 & Hf2).
    exists (l1 ++ l2).
    destruct (process_rows env folder_id hs _ 1 data_rows (w1, log ++ l1))
      as [[e|ro] s2];
      simpl in *; rewrite Hl2, <- app_assoc, !count_events_app;
      (split; [reflexivity|]); lia.
Qed.

(** X22. Rows without a photo cell.  When there is no photo column, or every
    data row is too short to reach it, the loop makes no call at all: the
    world and the log are unchanged and every output row is the packed
    text of its cells. *)
Theorem process_rows_without_photo folder_id headers photo_idx r_i data_rows s :
  forallb (no_photo_cell photo_idx) data_rows = true ->
  process_rows env folder_id headers photo_idx r_i data_rows s
  = (inr (map (fun row => pack_row headers (map cell_text (cells row)))
            data_rows), s).
Proof.
  revert r_i. induction data_rows as [|row rest IH]; intros r_i H; simpl;
    [reflexivity|].
  simpl in H. apply andb_prop in H as [Hrow Hrest].
  unfold_m.
  assert (Hr : process_row env folder_id headers photo_idx r_i row s
               = (inr (pack_row headers (map cell_text (cells row))), s)).
  { unfold process_row, row_values. unfold_m.
    destruct photo_idx as [p|]; [|reflexivity].
    simpl in Hrow. apply Nat.leb_le in Hrow.
    rewrite (lookup_ge_None_2 (cells row) p Hrow). reflexivity. }
  rewrite Hr, (IH (S r_i) Hrest). reflexivity.
Qed.

End ConversionShape.

Lemma convert_output_shape_witness :
  exists table first_row folder_id,
    choose_table photo_doc = Some table
    /\ head (rows table) = Some first_row
    /\ length ["Name"; "Age"; "Photo"; "Notes"] = length (cells first_row)
    /\ length photo_doc_rows
       = (if header_like (map cell_text (cells first_row))
          then length (rows table) - 1 else length (rows table))
    /\ forall k row,
         snd (build_headers first_row (rows table)) !! k = Some row ->
         exists sk sk' row_dict,
           process_row sim_env folder_id ["Name"; "Age"; "Photo"; "Notes"]
             (find_photo_idx (set_map lower PHOTO_HEADER_CANDIDATES) 0
                ["Name"; "Age"; "Photo"; "Notes"])
             (1 + k) row sk = (inr row_dict, sk')
           /\ photo_doc_rows !! k = Some row_dict.
Proof.
  eapply (convert_output_shape sim_env photo_doc "DOCX Image Uploads"
            PHOTO_HEADER_CANDIDATES (sim_empty, []) photo_doc_rows
            ["Name"; "Age"; "Photo"; "Notes"]).
  vm_compute. reflexivity.
Defined.

Lemma process_rows_without_photo_witness :
  process_rows sim_env "fld" ["Name"; "Age"; "Photo"] (Some 2) 1
    [row_of ["Al"; "3"]; row_of ["Bo"]] (sim_empty, [])
  = (inr [pack_row ["Name"; "Age"; "Photo"] ["Al"; "3"];
          pack_row ["Name"; "Age"; "Photo"] ["Bo"]], (sim_empty, [])).
Proof.
  exact (process_rows_without_photo sim_env "fld" ["Name"; "Age"; "Photo"]
           (Some 2) 1 [row_of ["Al"; "3"]; row_of ["Bo"]] (sim_empty, [])
           eq_refl).
Defined.

(** ** A blank first row *)

Lemma nonempty_count_blank (cs : list Cell) :
  forallb (fun c => forallb blank (paragraphs c)) cs = true ->
  nonempty_count (map cell_text cs) = 0.
Proof.
  unfold nonempty_count. induction cs as [|c cs IH]; [reflexivity|].
  simpl. intros H. apply andb_prop in H as [Hc Hcs].
  apply cell_text_blank in Hc. rewrite Hc. simpl. exact (IH Hcs).
Qed.

(** X23. A first row whose cells are all blank is never taken as the
    header, however many cells it has: the headers are Column 1 to Column n
    and the blank row itself is the first data row. *)
Theorem blank_first_row_is_data first_row table_rows :
  forallb (fun c => forallb blank (paragraphs c)) (cells first_row) = true ->
  build_headers first_row table_rows
  = (synthetic_headers (length (cells first_row)), table_rows).
Proof.
  intros H. unfold build_headers, header_like, header_threshold.
  rewrite (nonempty_count_blank _ H).
  assert (Hl : (Nat.max 1 (length (map cell_text (cells first_row)) * 6 / 10)
                <=? 0) = false) by (apply Nat.leb_gt; lia).
  rewrite Hl. reflexivity.
Qed.

Lemma blank_first_row_is_data_witness :
  build_headers (row_of [" "; EmptyString]) [row_of [" "; EmptyString]]
  = (["Column 1"; "Column 2"], [row_of [" "; EmptyString]]).
Proof.
  exact (blank_first_row_is_data (row_of [" "; EmptyString])
           [row_of [" "; EmptyString]] eq_refl).
Defined.

(** ** The folder query *)

Lemma escape_quote_head s c r :
  escape_quote s = String c r -> Ascii.eqb c apostrophe = false.
Proof.
  destruct s as [|c0 s]; simpl; [discriminate|].
  destruct (Ascii.eqb c0 apostrophe) eqn:E; intros H; injection H as <- _;
    [reflexivity|exact E].
Qed.

Lemma escape_quote_inj s1 :
  forall s2, escape_quote s1 = escape_quote s2 -> s1 = s2.
Proof.
  induction s1 as [|c1 s1 IH]; intros [|c2 s2]; simpl.
  - reflexivity.
  - destruct (Ascii.eqb c2 apostrophe); discriminate.
  - destruct (Ascii.eqb c1 apostrophe); discriminate.
  - destruct (Ascii.eqb c1 apostrophe) eqn:E1;
      destruct (Ascii.eqb c2 apostrophe) eqn:E2; intros H.
    + apply Ascii.eqb_eq in E1, E2. subst. injection H as H.
      rewrite (IH _ H). reflexivity.
    + injection H as _ H. symmetry in H. apply escape_quote_head in H.
      discriminate.
    + injection H as _ H. apply escape_quote_head in H. discriminate.
    + injection H as -> H. rewrite (IH _ H). reflexivity.
Qed.

Lemma string_length_append a b :
  String.length (a +:+ b) = String.length a + String.length b.
Proof.
  induction a as [|c a IH]; [reflexivity|].
  change (S (String.length (a +:+ b)) = S (String.length a + String.length b)).
  rewrite IH. reflexivity.
Qed.

Lemma append_cancel_r t a :
  forall b, a +:+ t = b +:+ t -> a = b.
Proof.
  induction a as [|c a IH]; intros [|c' b] H.
  - reflexivity.
  - change (t = String c' (b +:+ t)) in H.
    apply (f_equal String.length) in H. simpl in H.
    rewrite string_length_append in H. lia.
  - change (String c (a +:+ t) = t) in H.
    apply (f_equal String.length) in H. simpl in H.
    rewrite string_length_append in H. lia.
  - change (String c (a +:+ t) = String c' (b +:+ t)) in H.
    injection H as -> H. rewrite (IH _ H). reflexivity.
Qed.

Lemma quotes_guarded_escape s : forall prev, quotes_guarded prev (escape_quote s) = true.
Proof.
  induction s as [|c s IH]; intros prev; simpl; [reflexivity|].
  destruct (Ascii.eqb c apostrophe) eqn:E; simpl.
  - rewrite (IH false). reflexivity.
  - rewrite E, IH. reflexivity.
Qed.

(** X24. The escaping of the folder name.  In the escaped name every
    apostrophe comes right after a backslash, and the escaping loses
    nothing: two different folder names never give the same query. *)
Theorem folder_query_injective name1 name2 :
  quotes_guarded false (escape_quote name1) = true
  /\ (name1 <> name2 -> folder_query name1 <> folder_query name2).
Proof.
  split; [apply quotes_guarded_escape|].
  unfold folder_query. cbv zeta. intros Hne H. apply Hne.
  change ("name = '" +:+ ?a +:+ ?b) with ("name = '" +:+ (a +:+ b)) in H.
  apply escape_quote_inj.
  eapply (append_cancel_r
            ("' and " +:+ "mimeType = 'application/vnd.google-apps.folder' and "
             +:+ "trashed = false")).
  cbn [String.append] in H. injection H as H. exact H.
Qed.

Lemma folder_query_injective_witness :
  folder_query "Al's photos" <> folder_query "Als photos".
Proof.
  apply (proj2 (folder_query_injective "Al's photos" "Als photos")).
  discriminate.
Defined.

(** ** Where a photo value comes from *)

Section PhotoValue.
Context {W : Type} (env : Env W).

(** X25. The photo value of a processed row has one of two origins and no
    other: the view URL of an object uploaded for this row, when an image is
    found in the part of the cell, or the text of the cell, when none is.
    It is never taken from a hyperlink. *)
Theorem photo_value_origin folder_id r_i row p cell s values s' :
  cells row !! p = Some cell ->
  row_values env folder_id (Some p) r_i row s = (inr values, s') ->
  (exists data mime file_id,
     first_embedded_image_bytes cell = Some (data, mime)
     /\ values !! p = Some (view_url file_id))
  \/ (first_embedded_image_bytes cell = None
      /\ values !! p = Some (cell_text cell)).
Proof.
  intros Hp H.
  destruct (first_embedded_image_bytes cell) as [[data mime]|] eqn:He.
  - rewrite (row_values_photo env _ _ _ _ _ _ Hp),
      (resolve_photo_embedded env _ _ _ _ _ _ He) in H.
    destruct (upload_image_bytes env folder_id (photo_name r_i) data (Some mime) s)
      as [[e|link] s1] eqn:Eu; [discriminate|].
    left. pose proof Eu as Eu'.
    apply upload_image_bytes_result in Eu' as (file_id & w1 & _ & ->).
    simpl in H. injection H as <- _. exists data, mime, file_id.
    split; [reflexivity|]. eapply lookup_replaced; eauto.
  - right. rewrite (row_values_no_image env _ _ _ _ _ _ Hp He) in H.
    injection H as <- _. split; [reflexivity|].
    change (map cell_text (cells row)) with (cell_text <$> cells row).
    rewrite list_lookup_fmap, Hp. reflexivity.
Qed.

Lemma resolve_photo_no_fetch folder_id r_i cell w log :
  exists l, snd (snd (resolve_photo env folder_id r_i cell (w, log))) = log ++ l
            /\ count_events is_fetch l = 0.
Proof.
  destruct (first_embedded_image_bytes cell) as [[data mime]|] eqn:He.
  - rewrite (resolve_photo_embedded env _ _ _ _ _ _ He).
    destruct (upload_image_bytes_log env folder_id (photo_name r_i) data
                (Some mime) w log) as (l & Hl & _ & Hf).
    exists l. destruct (upload_image_bytes env _ _ _ _ _) as [[e|link] s1];
      simpl in *; (split; [exact Hl|exact Hf]).
  - rewrite (resolve_photo_no_image env _ _ _ _ He). exists [].
    simpl. rewrite app_nil_r. split; reflexivity.
Qed.

Lemma process_row_no_fetch folder_id headers photo_idx r_i row w log :
  exists l,
    snd (snd (process_row env folder_id headers photo_idx r_i row (w, log)))
    = log ++ l
    /\ count_events is_fetch l = 0.
Proof.
  assert (Hnone : exists l : list Event, log = log ++ l /\ count_events is_fetch l = 0).
  { exists []. rewrite app_nil_r. split; reflexivity. }
  rewrite process_row_pack.
  destruct photo_idx as [p|]; [|exact Hnone].
  destruct (cells row !! p) as [cell|] eqn:Hp.
  - rewrite (row_values_photo env _ _ _ _ _ _ Hp).
    destruct (resolve_photo_no_fetch folder_id r_i cell w log) as (l & Hl & Hf).
    exists l. split; [|exact Hf].
    destruct (resolve_photo env folder_id r_i cell (w, log)) as [[e|[link|]] s1];
      exact Hl.
  - unfold row_values. rewrite Hp. exact Hnone.
Qed.

Lemma process_rows_no_fetch folder_id headers photo_idx data_rows :
  forall r_i w log,
  exists l,
    snd (snd (process_rows env folder_id headers photo_idx r_i data_rows (w, log)))
    = log ++ l
    /\ count_events is_fetch l = 0.
Proof.
  induction data_rows as [|row rest IH]; intros r_i w log.
  - exists []. simpl. rewrite app_nil_r. split; reflexivity.
  - simpl. unfold_m.
    destruct (process_row_no_fetch folder_id headers photo_idx r_i row w log)
      as (l1 & Hl1 & Hf1).
    destruct (process_row env folder_id headers photo_idx r_i row (w, log))
      as [[e|d] [w1 log1]]; simpl in Hl1; subst log1.
    + exists l1. simpl. split; [reflexivity|exact Hf1].
    + destruct (IH (S r_i) w1 (log ++ l1)) as (l2 & Hl2 & Hf2).
      exists (l1 ++ l2).
      destruct (process_rows env folder_id headers photo_idx (S r_i) rest
                  (w1, log ++ l1)) as [[e|ds] s2];
        simpl in *; rewrite Hl2, <- app_assoc, count_events_app, Hf1, Hf2;
        split; reflexivity.
Qed.

(** X6. A conversion never makes an HTTP request, whatever the document
    and the world: no hyperlink is ever resolved, so the remote fetcher is
    never called. *)
Theorem convert_never_fetches doc folder_name candidates w log :
  exists l,
    snd (snd (convert_docx_to_excel_with_drive env doc folder_name candidates
                (w, log))) = log ++ l
    /\ count_events is_fetch l = 0.
Proof.
  unfold convert_docx_to_excel_with_drive.
  assert (Hnone : exists l : list Event, log = log ++ l /\ count_events is_fetch l = 0).
  { exists []. rewrite app_nil_r. split; reflexivity. }
  destruct (choose_table doc) as [table|]; [|exact Hnone].
  destruct (rows table) as [|first_row rest]; [exact Hnone|].
  destruct (build_headers first_row (first_row :: rest)) as [hs data_rows].
  unfold_m.
  destruct (find_or_create_folder_log env folder_name w log) as (l1 & Hl1 & _ & Hf1).
  destruct (find_or_create_folder env folder_name (w, log))
    as [[e|folder_id] [w1 log1]]; simpl in Hl1; subst log1.
  - exists l1. simpl. split; [reflexivity|exact Hf1].
  - destruct (process_rows_no_fetch folder_id hs
                (find_photo_idx (set_map lower candidates) 0 hs) data_rows
                1 w1 (log ++ l1)) as (l2 & Hl2 & Hf2).
    exists (l1 ++ l2).
    destruct (process_rows env folder_id hs _ 1 data_rows (w1, log ++ l1))
      as [[e|ro] s2];
      simpl in *; rewrite Hl2, <- app_assoc, count_events_app, Hf1, Hf2;
      split; reflexivity.
Qed.

End PhotoValue.

Lemma photo_value_origin_witness :
  (exists data mime file_id,
     first_embedded_image_bytes (link_cell example_url) = Some (data, mime)
     /\ ["Bo"; "see photo"] !! 1 = Some (view_url file_id))
  \/ (first_embedded_image_bytes (link_cell example_url) = None
      /\ ["Bo"; "see photo"] !! 1 = Some (cell_text (link_cell example_url))).
Proof.
  exact (photo_value_origin sim_env "fld" 1 (link_row example_url) 1
           (link_cell example_url) (sim_reachable, []) ["Bo"; "see photo"]
           (sim_reachable, []) eq_refl eq_refl).
Defined.
